(** * qrl_navigation: replay buffer and Q-networks

    A shallow embedding of [qrl_navigation/replay_buffer.py] and
    [qrl_navigation/model.py], followed by the properties of the two
    components.

    Conventions of the embedding.
    - Python [int]s are [Z]; lengths and validated dimensions are [nat].
    - Floating-point numbers are idealised as exact rationals ([Q]); an
      equation between computed numbers is stated up to [Qeq], which is
      the reading of "equal within tolerance" in exact arithmetic.
    - A raised exception is a value of [Py.result]; a method of an object
      is a function of the receiver and of the process-wide state that
      returns the outcome together with the receiver and the state
      afterwards.
    - The library functions the code calls ([collections.deque],
      [random.seed], [random.sample], [numpy.vstack], [torch.nn.Linear],
      [torch.manual_seed], [torch.from_numpy], [torch.mean],
      broadcasting) are modelled after their documented behaviour, in
      the modules [Deque], [Random], [Np] and [Torch].
    - What depends on the process and not on the code is a parameter:
      the state a seed puts a generator in, whether a layer of given
      widths can be allocated ([allocates]), and whether tensors can be
      placed on a device ([device_error]). *)

From Stdlib Require Import String.
From Stdlib Require Import List ZArith QArith Qminmax Lia Bool Permutation.
From Stdlib Require Import Setoid Morphisms.
Import ListNotations.

Set Implicit Arguments.

(* ================================================================= *)
(** ** Python values, exceptions *)

Module Py.

(** The exceptions that the modelled code can raise. *)
Inductive exn : Type :=
| AssertionError
| IndexError
| RuntimeError
| TypeError
| ValueError.

Inductive result (A : Type) : Type :=
| Ok (a : A)
| Raise (e : exn).
Arguments Ok {A} a.
Arguments Raise {A} e.

Definition bind {A B} (r : result A) (k : A -> result B) : result B :=
  match r with
  | Ok a => k a
  | Raise e => Raise e
  end.

Definition is_ok {A} (r : result A) : bool :=
  match r with Ok _ => true | Raise _ => false end.

(** [None], the value of a call that returns nothing. *)
Inductive NoneType : Type := PyNone.

(** The dynamically typed values an argument such as [fc_units] can be. *)
#[warnings="-register-all"] Inductive object : Type :=
| Int (z : Z)
| Float (q : Q)
| Str (s : string)
| NoneObj
| PyList (l : list object)
| PyTuple (l : list object).

Definition is_int (o : object) : bool :=
  match o with
  | Int _ => true
  | _ => false
  end.

(** An ordered sequence (a list or a tuple) of integers. *)
Definition is_int_sequence (o : object) : bool :=
  match o with
  | PyList l | PyTuple l => forallb is_int l
  | _ => false
  end.

(** [isinstance(o, list)]. *)
Definition is_list (o : object) : bool :=
  match o with
  | PyList _ => true
  | _ => false
  end.

End Py.

Import Py.

Notation "x <- r ;; k" := (Py.bind r (fun x => k))
  (at level 61, r at next level, right associativity).

(* ================================================================= *)
(** ** [collections.deque] with a bound *)

Module Deque.

Record deque (A : Type) : Type := mk {
  maxlen : nat;
  items : list A
}.

(** [deque(maxlen=n)]: a negative bound is refused.  (The bounds of
    the model are those of a C [ssize_t]; CPython answers a bound
    beyond it with an [OverflowError], which the model leaves out.) *)
Definition new (A : Type) (n : Z) : result (deque A) :=
  if (n <? 0)%Z then Raise ValueError
  else Ok {| maxlen := Z.to_nat n; items := [] |}.

(** [d.append(x)]: the item is put at the right end, and when the
    bound is then exceeded one item is popped at the left end. *)
Definition append (A : Type) (d : deque A) (x : A) : deque A :=
  let items' := items d ++ [x] in
  {| maxlen := maxlen d;
     items := if (maxlen d <? length items')%nat then tl items' else items' |}.

Definition len (A : Type) (d : deque A) : nat := length (items d).

(** The last [n] items of a list. *)
Definition lastn (A : Type) (n : nat) (l : list A) : list A :=
  skipn (length l - n) l.

End Deque.

(* ================================================================= *)
(** ** The module-level generator of [random] *)

Module Random.

(** The state of a generator is the sequence of raw words it is going
    to produce; every behaviour of a deterministic generator is one
    such sequence. *)
Definition state : Type := nat -> nat.

(** [_randbelow(n)]: a number below [n], consuming one word. *)
Definition randbelow (n : nat) (g : state) : nat * state :=
  (g 0%nat mod n, fun i => g (S i))%nat.

(** Assignment [pool[j] = x]. *)
Fixpoint set_item (A : Type) (pool : list A) (j : nat) (x : A) : list A :=
  match pool, j with
  | [], _ => []
  | _ :: t, O => x :: t
  | h :: t, S j' => h :: set_item t j' x
  end.

(** The selection loop of [random.sample]:
    [for i in range(k): j = randbelow(n-i); result[i] = pool[j];
     pool[j] = pool[n-i-1]], where [n] below is the number of pool
    entries still eligible. *)
Fixpoint draw (A : Type) (k n : nat) (pool : list A) (g : state)
  : result (list A) * state :=
  match k with
  | O => (Ok [], g)
  | S k' =>
      let (j, g1) := randbelow n g in
      match nth_error pool j, nth_error pool (n - 1) with
      | Some x, Some y =>
          let (r, g2) := draw k' (n - 1) (set_item pool j y) g1 in
          (x' <- r ;; Ok (x :: x'), g2)
      | _, _ => (Raise IndexError, g1)
      end
  end.

(** [random.sample(population, k)]: [ValueError] unless [0 <= k <= n];
    the pool is a copy of the population.  (For large populations
    CPython tracks the selected positions in a set instead of
    shrinking a pool; both select [k] distinct positions.) *)
Definition sample (A : Type) (population : list A) (k : Z) (g : state)
  : result (list A) * state :=
  let n := length population in
  if ((0 <=? k)%Z && (k <=? Z.of_nat n)%Z)%bool
  then draw (Z.to_nat k) n population g
  else (Raise ValueError, g).

(** The items of a population at the given positions, in the order of
    the positions. *)
Definition items_at (A : Type) (population : list A) (positions : list nat) : list A :=
  flat_map (fun i => match nth_error population i with
                     | Some x => [x]
                     | None => []
                     end) positions.

(** The positions that [sample] selects in a population of [n] items. *)
Definition sample_indices (n : nat) (k : Z) (g : state)
  : result (list nat) * state :=
  sample (seq 0 n) k g.

End Random.

(* ================================================================= *)
(** ** Tensors and [numpy.vstack] *)

Module Torch.

(** Tensors of rank one and two, the ranks of a state and of a batch
    of states. *)
Inductive tensor (A : Type) : Type :=
| T1 (v : list A)
| T2 (ncols : nat) (rows : list (list A)).

Definition nrows (A : Type) (t : tensor A) : nat :=
  match t with
  | T1 v => length v
  | T2 _ rows => length rows
  end.

(** Every row of a rank-two tensor has [ncols] entries. *)
Definition well_shaped (A : Type) (t : tensor A) : Prop :=
  match t with
  | T1 _ => True
  | T2 c rows => Forall (fun r => length r = c) rows
  end.

(** *** Layers *)

(** [torch.nn.Linear]: [weight] has [out_features] rows of
    [in_features] entries, [bias] has [out_features] entries. *)
Record Linear : Type := mk_linear {
  in_features : nat;
  out_features : nat;
  weight : list (list Q);
  bias : list Q
}.

(** The default generator of [torch]: the numbers it is going to
    produce. *)
Definition Generator : Type := nat -> Q.

Definition take_draws (n : nat) (g : Generator) : list Q * Generator :=
  (map g (seq 0 n), fun i => g (n + i)%nat).

Fixpoint take_rows (r c : nat) (g : Generator) : list (list Q) * Generator :=
  match r with
  | O => ([], g)
  | S r' =>
      let (row, g1) := take_draws c g in
      let (rows, g2) := take_rows r' c g1 in
      (row :: rows, g2)
  end.

(** The range of a 64-bit signed integer. *)
Definition in_int64 (z : Z) : bool := ((- 2 ^ 63 <=? z) && (z <? 2 ^ 63))%Z.

(** A dimension must be an integer, and one that fits 64 bits. *)
Definition as_size (o : object) : result Z :=
  match o with
  | Int z => if in_int64 z then Ok z else Raise TypeError
  | _ => Raise TypeError
  end.

(** [nn.Linear(i, o)]: allocates and initialises the parameters from
    the default generator; a dimension that is not an integer of 64
    bits is a [TypeError], a negative one a [RuntimeError], and so is a
    layer too large to allocate.  [allocates o i] tells whether the
    process can obtain the memory of a layer with [o] outputs and [i]
    inputs. *)
Definition nn_Linear (allocates : Z -> Z -> bool) (i o : object) (g : Generator)
  : result (Linear * Generator) :=
  i <- as_size i ;;
  o <- as_size o ;;
  if ((i <? 0)%Z || (o <? 0)%Z)%bool then Raise RuntimeError
  else if allocates o i then
    let (w, g1) := take_rows (Z.to_nat o) (Z.to_nat i) g in
    let (b, g2) := take_draws (Z.to_nat o) g1 in
    Ok ({| in_features := Z.to_nat i; out_features := Z.to_nat o;
           weight := w; bias := b |}, g2)
  else Raise RuntimeError.

(** The sizes [nn.Linear] takes: non-negative and within the signed
    64-bit range. *)
Definition size_ok (z : Z) : Prop := (0 <= z < 2 ^ 63)%Z.

(** The seeds that [torch.manual_seed] accepts. *)
Definition seed_in_range (seed : Z) : bool :=
  ((- 2 ^ 63 <=? seed) && (seed <? 2 ^ 64))%Z.

(** [torch.manual_seed(seed)]: a seed outside the accepted range is a
    [RuntimeError]; otherwise the default generator is put in the state
    [state_of seed]. *)
Definition manual_seed (state_of : Z -> Generator) (seed : Z) : result Generator :=
  if seed_in_range seed then Ok (state_of seed) else Raise RuntimeError.

(** [l.weight = torch.nn.init.xavier_normal_(l.weight)]: the weight is
    drawn again, with the same shape. *)
Definition xavier_normal_ (l : Linear) (g : Generator) : Linear * Generator :=
  let (w, g1) := take_rows (out_features l) (in_features l) g in
  ({| in_features := in_features l; out_features := out_features l;
      weight := w; bias := bias l |}, g1).

(** The parameters have the shape the layer declares. *)
Definition Linear_ok (l : Linear) : Prop :=
  length (weight l) = out_features l /\
  length (bias l) = out_features l /\
  Forall (fun r => length r = in_features l) (weight l).

(** *** Operations *)

Fixpoint dot (u v : list Q) : Q :=
  match u, v with
  | a :: u', b :: v' => a * b + dot u' v'
  | _, _ => 0
  end.

(** One output per row of [weight]: [w . x + b]. *)
Definition affine (l : Linear) (x : list Q) : list Q :=
  map (fun wb => dot (fst wb) x + snd wb) (combine (weight l) (bias l)).

(** Calling a [Linear] layer: it acts on the last dimension, which must
    have [in_features] entries. *)
Definition linear (l : Linear) (x : tensor Q) : result (tensor Q) :=
  match x with
  | T1 v =>
      if (length v =? in_features l)%nat then Ok (T1 (affine l v))
      else Raise RuntimeError
  | T2 c rows =>
      if (c =? in_features l)%nat
      then Ok (T2 (out_features l) (map (affine l) rows))
      else Raise RuntimeError
  end.

Definition relu1 (x : Q) : Q := if Qle_bool x 0 then 0 else x.

(** [F.relu]. *)
Definition relu (x : tensor Q) : tensor Q :=
  match x with
  | T1 v => T1 (map relu1 v)
  | T2 c rows => T2 c (map (map relu1) rows)
  end.

Definition sum (v : list Q) : Q := fold_right Qplus 0 v.

(** The mean of a row of [c] entries.  (For [c = 0] torch yields NaN,
    which the rationals do not have; what is proved about a mean below
    is for rows of at least one entry.) *)
Definition mean (c : nat) (r : list Q) : Q := sum r / inject_Z (Z.of_nat c).

(** [torch.mean(x, dim=1)]: a tensor of rank one has no dimension 1. *)
Definition mean_dim1 (x : tensor Q) : result (list Q) :=
  match x with
  | T1 _ => Raise IndexError
  | T2 c rows => Ok (map (mean c) rows)
  end.

(** [m.unsqueeze(1)] for [m] of rank one: a column. *)
Definition unsqueeze1 (m : list Q) : tensor Q := T2 1 (map (fun a => [a]) m).

(** Broadcasting of two sizes of one dimension. *)
Definition bshape (m n : nat) : option nat :=
  if (m =? n)%nat then Some m
  else if (m =? 1)%nat then Some n
  else if (n =? 1)%nat then Some m
  else None.

(** A dimension of size one is repeated to size [n]. *)
Definition expand (A : Type) (n : nat) (d : A) (l : list A) : list A :=
  if (length l =? n)%nat then l else repeat (hd d l) n.

Fixpoint zip_with (A B C : Type) (f : A -> B -> C) (u : list A) (v : list B) : list C :=
  match u, v with
  | a :: u', b :: v' => f a b :: zip_with f u' v'
  | _, _ => []
  end.

(** A tensor of rank one seen as a single row. *)
Definition as_rows (x : tensor Q) : nat * list (list Q) :=
  match x with
  | T1 v => (length v, [v])
  | T2 c rows => (c, rows)
  end.

(** An elementwise binary operation with broadcasting. *)
Definition broadcast (f : Q -> Q -> Q) (x y : tensor Q) : result (tensor Q) :=
  match x, y with
  | T1 u, T1 v =>
      match bshape (length u) (length v) with
      | Some n => Ok (T1 (zip_with f (expand n 0 u) (expand n 0 v)))
      | None => Raise RuntimeError
      end
  | _, _ =>
      let (cx, rx) := as_rows x in
      let (cy, ry) := as_rows y in
      match bshape cx cy, bshape (length rx) (length ry) with
      | Some c, Some r =>
          Ok (T2 c (zip_with (fun a b => zip_with f (expand c 0 a) (expand c 0 b))
                             (expand r [] rx) (expand r [] ry)))
      | _, _ => Raise RuntimeError
      end
  end.

Definition sub : tensor Q -> tensor Q -> result (tensor Q) := broadcast Qminus.
Definition add : tensor Q -> tensor Q -> result (tensor Q) := broadcast Qplus.

(** *** Shapes *)

(** The size of the last dimension. *)
Definition last_dim (A : Type) (x : tensor A) : nat :=
  match x with
  | T1 v => length v
  | T2 c _ => c
  end.

(** The size of the batch dimension, if there is one. *)
Definition batch_dim (A : Type) (x : tensor A) : option nat :=
  match x with
  | T1 _ => None
  | T2 _ rows => Some (length rows)
  end.

(** All the numbers of a tensor. *)
Definition entries (A : Type) (x : tensor A) : list A :=
  match x with
  | T1 v => v
  | T2 _ rows => concat rows
  end.

(** Layers that fit one after the other, from [i] inputs to [o]
    outputs. *)
Fixpoint chain (i : nat) (layers : list Linear) (o : nat) : Prop :=
  match layers with
  | [] => i = o
  | l :: rest => Linear_ok l /\ in_features l = i /\ chain (out_features l) rest o
  end.

(** *** Conversions *)

(** [torch.from_numpy(a)] for an array of Python integers, followed by
    [.long()]: an integer outside 64 bits gives the array a dtype that
    [torch.from_numpy] refuses with a [TypeError].  (A column that
    mixes integers within and beyond 64 bits is promoted to floats by
    [numpy]; the model refuses it as well, and the properties below
    take columns of one kind.) *)
Definition from_numpy_long (a : tensor Z) : result (tensor Z) :=
  if forallb in_int64 (entries a) then Ok a else Raise TypeError.

(** [t.to(device)]: [device_error device] is [None] when the process
    can place tensors on the device and the exception raised
    otherwise. *)
Definition to_device (A : Type) (device_error : string -> option exn)
    (device : string) (t : tensor A) : result (tensor A) :=
  match device_error device with
  | None => Ok t
  | Some e => Raise e
  end.

(** The dueling combination for one sample, as the specification
    writes it: [Q = V + (A - mean(A))], the mean taken over the [n]
    actions. *)
Definition dueling_q (n : nat) (v : Q) (a : list Q) : list Q :=
  map (fun x => v + (x - mean n a)) a.

End Torch.

Module Np.

Import Torch.

(** [np.vstack] of one-dimensional arrays: at least one array is
    needed and all must have the length of the first. *)
Definition vstack (A : Type) (arrays : list (list A)) : result (tensor A) :=
  match arrays with
  | [] => Raise ValueError
  | a :: _ =>
      if forallb (fun r => (length r =? length a)%nat) arrays
      then Ok (T2 (length a) arrays)
      else Raise ValueError
  end.

(** [np.vstack] of scalars: each becomes a row of one entry. *)
Definition vstack_scalars (A : Type) (xs : list A) : result (tensor A) :=
  vstack (map (fun x => [x]) xs).

End Np.

(* ================================================================= *)
(** ** [replay_buffer.py] *)

Module ReplayBuffer.

Import Torch.

(** The named tuple [Experience]. *)
Record Experience : Type := experience {
  state : list Q;
  action : Z;
  reward : Q;
  next_state : list Q;
  done : bool
}.

(** The attributes of a [ReplayBuffer].  [seed] holds what
    [random.seed] returned. *)
Record t : Type := mk {
  action_size : Z;
  memory : Deque.deque Experience;
  batch_size : Z;
  device : string;
  seed : NoneType
}.

(** The process-wide state the class touches: the generator of the
    [random] module. *)
Definition World : Type := Random.state.

(** What a method call leaves behind: the returned value or the
    exception, the receiver and the process-wide state. *)
Record outcome (A : Type) : Type := mk_outcome {
  value : result A;
  self_after : t;
  world_after : World
}.

Definition method (A : Type) : Type := t -> World -> outcome A.

(** The five column batches that [sample] returns. *)
Record batch : Type := mk_batch {
  states : tensor Q;
  actions : tensor Z;
  rewards : tensor Q;
  next_states : tensor Q;
  dones : tensor Q
}.

Definition default_buffer_size : Z := 100000.
Definition default_batch_size : Z := 64.

Section WithGenerator.

(** [random.seed(a)] for an integer [a]: the state the generator is
    put in. *)
Variable seeded : Z -> Random.state.

(** [random.seed(seed)]: replaces the module-level state, returns
    [None]. *)
Definition random_seed (a : Z) (w : World) : NoneType * World :=
  (PyNone, seeded a).

(** [ReplayBuffer.__init__]. *)
Definition __init__ (action_size buffer_size batch_size seed : Z)
    (device : string) (w : World) : result t * World :=
  match Deque.new Experience buffer_size with
  | Raise e => (Raise e, w)
  | Ok memory =>
      let (none, w') := random_seed seed w in
      (Ok {| action_size := action_size;
             memory := memory;
             batch_size := batch_size;
             device := device;
             seed := none |}, w')
  end.

End WithGenerator.

(** [ReplayBuffer.add]. *)
Definition add (e : Experience) : method NoneType :=
  fun self w =>
    {| value := Ok PyNone;
       self_after := {| action_size := action_size self;
                        memory := Deque.append (memory self) e;
                        batch_size := batch_size self;
                        device := device self;
                        seed := seed self |};
       world_after := w |}.

(** [done] as [uint8] and then as a float. *)
Definition done_to_float (d : bool) : Q := if d then 1 else 0.

Section WithDevices.

(** The devices of the process: [None] for a device tensors can be
    placed on, the exception that [.to(device)] raises otherwise. *)
Variable device_error : string -> option exn.

(** The body of [sample] after the draw: the five columns, each one
    stacked, converted and placed on the device, in the order of the
    source.  (The filter [if e is not None] keeps every entry: [add]
    stores named tuples only.  [.float()] is the identity on the
    rationals that stand for floats.) *)
Definition columns (device : string) (experiences : list Experience) : result batch :=
  states <- (a <- Np.vstack (map state experiences) ;;
             to_device device_error device a) ;;
  actions <- (a <- Np.vstack_scalars (map action experiences) ;;
              t <- from_numpy_long a ;;
              to_device device_error device t) ;;
  rewards <- (a <- Np.vstack_scalars (map reward experiences) ;;
              to_device device_error device a) ;;
  next_states <- (a <- Np.vstack (map next_state experiences) ;;
                  to_device device_error device a) ;;
  dones <- (a <- Np.vstack_scalars (map (fun e => done_to_float (done e)) experiences) ;;
            to_device device_error device a) ;;
  Ok {| states := states; actions := actions; rewards := rewards;
        next_states := next_states; dones := dones |}.

(** [ReplayBuffer.sample]. *)
Definition sample : method batch :=
  fun self w =>
    let (r, w') := Random.sample (Deque.items (memory self)) (batch_size self) w in
    {| value := experiences <- r ;; columns (device self) experiences;
       self_after := self;
       world_after := w' |}.

End WithDevices.

(** [ReplayBuffer.__len__]. *)
Definition __len__ : method nat :=
  fun self w =>
    {| value := Ok (Deque.len (memory self)); self_after := self; world_after := w |}.

Definition len (self : t) : nat := Deque.len (memory self).

(** [ReplayBuffer.is_ready_to_sample]. *)
Definition is_ready_to_sample : method bool :=
  fun self w =>
    {| value := Ok (Z.of_nat (len self) >? batch_size self)%Z;
       self_after := self;
       world_after := w |}.

(** A sequence of [add] calls. *)
Definition add_all (es : list Experience) (self : t) (w : World) : t * World :=
  fold_left (fun sw e => let o := add e (fst sw) (snd sw) in
                         (self_after o, world_after o)) es (self, w).

(** The experiences that a draw of the given positions reads. *)
Definition at_positions (self : t) (positions : list nat) : list Experience :=
  Random.items_at (Deque.items (memory self)) positions.

(** An experience that [sample] can stack with others: a [state] of
    [S] numbers, a [next_state] of [S'] numbers and an [action] that
    fits 64 bits. *)
Definition stackable (S S' : nat) (e : Experience) : Prop :=
  length (state e) = S /\ length (next_state e) = S' /\ in_int64 (action e) = true.

(** Every stored experience is stackable, with the same two lengths. *)
Definition well_formed (S S' : nat) (self : t) : Prop :=
  Forall (stackable S S') (Deque.items (memory self)).

(** The batch made of the given experiences, column by column, for
    states of [S] and next states of [S'] numbers. *)
Definition batch_with (S S' : nat) (drawn : list Experience) : batch :=
  {| states := T2 S (map state drawn);
     actions := T2 1 (map (fun e => [action e]) drawn);
     rewards := T2 1 (map (fun e => [reward e]) drawn);
     next_states := T2 S' (map next_state drawn);
     dones := T2 1 (map (fun e => [done_to_float (done e)]) drawn) |}.

(** The batch made of the given experiences, column by column. *)
Definition batch_of (S : nat) (drawn : list Experience) : batch :=
  {| states := T2 S (map state drawn);
     actions := T2 1 (map (fun e => [action e]) drawn);
     rewards := T2 1 (map (fun e => [reward e]) drawn);
     next_states := T2 S (map next_state drawn);
     dones := T2 1 (map (fun e => [done_to_float (done e)]) drawn) |}.

End ReplayBuffer.

(** Small concrete data for the scenarios of the specification. *)
Module Scenario.

(** A generator for the scenarios: after seeding with [s] it produces
    [|s|], [|s| + 1], ... *)
Definition seeded (s : Z) : Random.state := fun i => (Z.to_nat (Z.abs s) + i)%nat.

(** The state of the generator before anything seeds it. *)
Definition boot : Random.state := fun _ => 0%nat.

(** The experience tagged [n]. *)
Definition tagged (n : Z) : ReplayBuffer.Experience :=
  {| ReplayBuffer.state := [inject_Z n; 0];
     ReplayBuffer.action := n;
     ReplayBuffer.reward := inject_Z n;
     ReplayBuffer.next_state := [inject_Z n; 1];
     ReplayBuffer.done := false |}.

(** A buffer of capacity [n] and batch size [k] holding the given items. *)
Definition buffer (n : nat) (k : Z) (items : list ReplayBuffer.Experience)
  : ReplayBuffer.t :=
  {| ReplayBuffer.action_size := 4;
     ReplayBuffer.memory := {| Deque.maxlen := n; Deque.items := items |};
     ReplayBuffer.batch_size := k;
     ReplayBuffer.device := "cpu";
     ReplayBuffer.seed := PyNone |}.

(** An allocator for the scenarios: layers of up to [2 ^ 24]
    weights. *)
Definition allocates (o i : Z) : bool := (o * i <=? 2 ^ 24)%Z.

(** The devices of the scenarios: tensors can be placed on ["cpu"]
    only. *)
Definition device_error (device : string) : option exn :=
  if String.eqb device "cpu" then None else Some RuntimeError.

(** A generator of [torch] for the scenarios: after seeding with [s]
    it produces [s], [s + 1], [s - 1], [s], [s + 1], ... *)
Definition manual_seed (s : Z) : Torch.Generator :=
  fun i => inject_Z (s + Z.of_nat (i mod 3) - 1).

(** The buffer of the end-to-end scenario, right after construction. *)
Definition fresh : ReplayBuffer.t := buffer 5 2 [].

(** The same buffer after the experiences tagged 0 to 3 were added. *)
Definition four : ReplayBuffer.t := buffer 5 2 (map tagged [0; 1; 2; 3]%Z).

(** An experience whose state has [n] entries. *)
Definition of_length (n : nat) : ReplayBuffer.Experience :=
  {| ReplayBuffer.state := repeat 0 n;
     ReplayBuffer.action := 0;
     ReplayBuffer.reward := 0;
     ReplayBuffer.next_state := repeat 0 n;
     ReplayBuffer.done := false |}.

(** A buffer whose three states have three different lengths. *)
Definition ragged : ReplayBuffer.t :=
  buffer 5 2 [of_length 1; of_length 2; of_length 3].

(** The experience tagged [n] with the action [2 ^ 63]. *)
Definition wide (n : Z) : ReplayBuffer.Experience :=
  {| ReplayBuffer.state := [inject_Z n; 0];
     ReplayBuffer.action := 2 ^ 63;
     ReplayBuffer.reward := inject_Z n;
     ReplayBuffer.next_state := [inject_Z n; 1];
     ReplayBuffer.done := false |}.

(** A buffer whose three actions are all [2 ^ 63]. *)
Definition wide_actions : ReplayBuffer.t := buffer 5 2 (map wide [0; 1; 2]%Z).

(** The buffer [four] constructed for a device that does not exist. *)
Definition elsewhere : ReplayBuffer.t :=
  {| ReplayBuffer.action_size := 4;
     ReplayBuffer.memory := {| Deque.maxlen := 5; Deque.items := map tagged [0; 1; 2; 3]%Z |};
     ReplayBuffer.batch_size := 2;
     ReplayBuffer.device := "nowhere";
     ReplayBuffer.seed := PyNone |}.

End Scenario.

(* ================================================================= *)
(** ** [model.py] *)

(** The layers between consecutive entries of [fc_units]:
    [[nn.Linear(fc_units[idx], fc_units[idx + 1])
      for idx in range(len(fc_units) - 1)]]. *)
Fixpoint hidden_layers (allocates : Z -> Z -> bool) (units : list object)
    (g : Torch.Generator) : result (list Torch.Linear * Torch.Generator) :=
  match units with
  | a :: ((b :: _) as rest) =>
      p <- Torch.nn_Linear allocates a b g ;;
      q <- hidden_layers allocates rest (snd p) ;;
      Ok (fst p :: fst q, snd q)
  | _ => Ok ([], g)
  end.

(** [for fc_layer in layers: x = F.relu(fc_layer(x))]. *)
Fixpoint relu_layers (layers : list Torch.Linear) (x : Torch.tensor Q)
  : result (Torch.tensor Q) :=
  match layers with
  | [] => Ok x
  | l :: rest =>
      y <- Torch.linear l x ;;
      relu_layers rest (Torch.relu y)
  end.

Module QNetwork.

Import Torch.

(** The attribute [fc_layers].  (The attribute [seed] refers to the
    default generator of [torch] and plays no part in [forward].) *)
Record t : Type := mk {
  fc_layers : list Linear
}.

(** [QNetwork._init_fc_layers]. *)
Definition _init_fc_layers (allocates : Z -> Z -> bool)
    (state_size action_size : Z) (fc_units : object)
    (g : Generator) : result (t * Generator) :=
  match fc_units with
  | PyList units =>
      match units with
      | [] => Raise AssertionError
      | first :: _ =>
          p0 <- nn_Linear allocates (Int state_size) first g ;;
          ph <- hidden_layers allocates units (snd p0) ;;
          pl <- nn_Linear allocates (last units first) (Int action_size) (snd ph) ;;
          Ok ({| fc_layers := (fst p0 :: fst ph) ++ [fst pl] |}, snd pl)
      end
  | _ => Raise AssertionError
  end.

Section WithSeed.

(** Whether the process can allocate a layer of the given widths. *)
Variable allocates : Z -> Z -> bool.

(** [torch.manual_seed(seed)]: the state the default generator is put
    in. *)
Variable manual_seed : Z -> Generator.

(** [QNetwork.__init__]. *)
Definition __init__ (state_size action_size seed : Z) (fc_units : object)
  : result t :=
  g <- Torch.manual_seed manual_seed seed ;;
  p <- _init_fc_layers allocates state_size action_size fc_units g ;;
  Ok (fst p).

End WithSeed.

(** The layers of a network from [i] inputs to [o] actions: one or more
    hidden layers that fit, and an output layer. *)
Definition shaped (i o : nat) (self : t) : Prop :=
  exists hidden out,
    fc_layers self = hidden ++ [out] /\
    hidden <> [] /\
    chain i hidden (in_features out) /\
    Linear_ok out /\
    out_features out = o.

(** [QNetwork.forward]. *)
Definition forward (self : t) (state : tensor Q) : result (tensor Q) :=
  x <- relu_layers (removelast (fc_layers self)) state ;;
  match fc_layers self with
  | [] => Raise IndexError
  | l :: ls => linear (last ls l) x
  end.

End QNetwork.

Module DuelingQNetwork.

Import Torch.

Record t : Type := mk {
  fc_layers : list Linear;
  value_layer1 : Linear;
  value_layer2 : Linear;
  action_layer1 : Linear;
  action_layer2 : Linear
}.

(** [DuelingQNetwork._init_fc_layers]. *)
Definition _init_fc_layers (allocates : Z -> Z -> bool)
    (state_size action_size : Z) (fc_units : object)
    (g : Generator) : result (t * Generator) :=
  match fc_units with
  | PyList units =>
      match units with
      | [] => Raise AssertionError
      | first :: _ =>
          p0 <- nn_Linear allocates (Int state_size) first g ;;
          ph <- hidden_layers allocates units (snd p0) ;;
          v1 <- nn_Linear allocates (last units first) (Int 32) (snd ph) ;;
          let (value_layer1, g1) := xavier_normal_ (fst v1) (snd v1) in
          v2 <- nn_Linear allocates (Int 32) (Int 1) g1 ;;
          a1 <- nn_Linear allocates (last units first) (Int 32) (snd v2) ;;
          let (action_layer1, g2) := xavier_normal_ (fst a1) (snd a1) in
          a2 <- nn_Linear allocates (Int 32) (Int action_size) g2 ;;
          Ok ({| fc_layers := fst p0 :: fst ph;
                 value_layer1 := value_layer1;
                 value_layer2 := fst v2;
                 action_layer1 := action_layer1;
                 action_layer2 := fst a2 |}, snd a2)
      end
  | _ => Raise AssertionError
  end.

Section WithSeed.

Variable allocates : Z -> Z -> bool.

Variable manual_seed : Z -> Generator.

(** [DuelingQNetwork.__init__]. *)
Definition __init__ (state_size action_size seed : Z) (fc_units : object)
  : result t :=
  g <- Torch.manual_seed manual_seed seed ;;
  p <- _init_fc_layers allocates state_size action_size fc_units g ;;
  Ok (fst p).

End WithSeed.

(** The layers of a dueling network from [i] inputs to [o] actions: a
    trunk of one or more layers that fit, and the two heads of width 32
    on top of it. *)
Definition shaped (i o : nat) (self : t) : Prop :=
  exists width,
    fc_layers self <> [] /\
    chain i (fc_layers self) width /\
    (Linear_ok (value_layer1 self) /\
     in_features (value_layer1 self) = width /\
     out_features (value_layer1 self) = 32%nat) /\
    (Linear_ok (value_layer2 self) /\
     in_features (value_layer2 self) = 32%nat /\
     out_features (value_layer2 self) = 1%nat) /\
    (Linear_ok (action_layer1 self) /\
     in_features (action_layer1 self) = width /\
     out_features (action_layer1 self) = 32%nat) /\
    (Linear_ok (action_layer2 self) /\
     in_features (action_layer2 self) = 32%nat /\
     out_features (action_layer2 self) = o).

(** The value head: [value_layer2(F.relu(value_layer1(x)))]. *)
Definition value_head (self : t) (x : tensor Q) : result (tensor Q) :=
  v <- linear (value_layer1 self) x ;;
  linear (value_layer2 self) (relu v).

(** The advantage head: [action_layer2(F.relu(action_layer1(x)))]. *)
Definition advantage_head (self : t) (x : tensor Q) : result (tensor Q) :=
  a <- linear (action_layer1 self) x ;;
  linear (action_layer2 self) (relu a).

(** [DuelingQNetwork.forward]. *)
Definition forward (self : t) (state : tensor Q) : result (tensor Q) :=
  x <- relu_layers (fc_layers self) state ;;
  v <- value_head self x ;;
  a <- advantage_head self x ;;
  m <- mean_dim1 a ;;
  centred <- sub a (unsqueeze1 m) ;;
  add v centred.

End DuelingQNetwork.

(* ================================================================= *)
(** ** Readings of the layers used in the properties *)

Module Layers.

Import Torch.

(** The widths of a layer: inputs and outputs. *)
Definition dims (l : Linear) : nat * nat := (in_features l, out_features l).

(** The widths (inputs, outputs) of the layers of the comprehension
    over [fc_units]. *)
Definition steps (zs : list Z) : list (Z * Z) := combine zs (tl zs).

(** The widths (inputs, outputs) of the layers that
    [QNetwork._init_fc_layers] constructs, in the order of their
    construction. *)
Definition qnetwork_shapes (state_size action_size : Z) (fc_units : list Z)
  : list (Z * Z) :=
  (state_size, hd 0%Z fc_units) :: steps fc_units
    ++ [(last fc_units 0%Z, action_size)].

(** The same for [DuelingQNetwork._init_fc_layers]. *)
Definition dueling_shapes (state_size action_size : Z) (fc_units : list Z)
  : list (Z * Z) :=
  (state_size, hd 0%Z fc_units) :: steps fc_units
    ++ [(last fc_units 0%Z, 32%Z); (32%Z, 1%Z);
        (last fc_units 0%Z, 32%Z); (32%Z, action_size)].

(** Every layer of the given widths can be allocated. *)
Definition allocatable (allocates : Z -> Z -> bool) (shapes : list (Z * Z)) : Prop :=
  Forall (fun p => allocates (snd p) (fst p) = true) shapes.

(** What the loop of [relu_layers] makes of one state: every layer
    followed by the activation. *)
Fixpoint relu_layers_row (layers : list Linear) (r : list Q) : list Q :=
  match layers with
  | [] => r
  | l :: rest => relu_layers_row rest (map relu1 (affine l r))
  end.

(** A head of two layers on one row: the first layer, the activation,
    the second layer. *)
Definition head_row (l1 l2 : Linear) (h : list Q) : list Q :=
  affine l2 (map relu1 (affine l1 h)).

End Layers.

(* ================================================================= *)
(** * Properties *)

Unset Implicit Arguments.

(** ** The bounded deque *)

Section DequeFacts.

Context {A : Type}.

Import Deque.

Lemma lastn_length (n : nat) (l : list A) : length (lastn n l) = Nat.min n (length l).
Proof. unfold lastn. rewrite length_skipn. lia. Qed.

Lemma lastn_all (n : nat) (l : list A) : (length l <= n)%nat -> lastn n l = l.
Proof.
  intros H. unfold lastn. replace (length l - n)%nat with 0%nat by lia. reflexivity.
Qed.

Lemma skipn_snoc (m : nat) (l : list A) (x : A) :
  (m <= length l)%nat -> skipn m (l ++ [x]) = skipn m l ++ [x].
Proof.
  intros H. rewrite skipn_app. replace (m - length l)%nat with 0%nat by lia. reflexivity.
Qed.

Lemma tl_skipn (m : nat) (l : list A) : tl (skipn m l) = skipn (S m) l.
Proof.
  revert l. induction m as [|m IH]; intros [|a l]; try reflexivity.
  change (skipn (S m) (a :: l)) with (skipn m l).
  change (skipn (S (S m)) (a :: l)) with (skipn (S m) l). apply IH.
Qed.

(** One [append] keeps the deque equal to the last [maxlen] items of
    everything appended so far. *)
Lemma append_lastn (d : Deque.deque A) (l : list A) (x : A) :
  Deque.items d = lastn (Deque.maxlen d) l ->
  Deque.items (Deque.append d x) = lastn (Deque.maxlen d) (l ++ [x]).
Proof.
  intros H. unfold Deque.append. simpl. rewrite H.
  rewrite length_app, lastn_length. simpl.
  destruct (Nat.ltb_spec (Deque.maxlen d) (Nat.min (Deque.maxlen d) (length l) + 1)) as [Hlt|Hge].
  - unfold lastn. rewrite <- skipn_snoc by lia. rewrite tl_skipn.
    rewrite length_app. f_equal. simpl. lia.
  - rewrite (lastn_all (Deque.maxlen d) l) by lia.
    rewrite lastn_all; [reflexivity|]. rewrite length_app. simpl. lia.
Qed.

Lemma append_maxlen (d : Deque.deque A) (x : A) :
  Deque.maxlen (Deque.append d x) = Deque.maxlen d.
Proof. reflexivity. Qed.

End DequeFacts.

(** ** Sequences of [add] *)

Section AddFacts.

Import ReplayBuffer.

Lemma add_all_snoc (es : list Experience) (e : Experience) (b : t) (w : World) :
  add_all (es ++ [e]) b w =
  (self_after (add e (fst (add_all es b w)) (snd (add_all es b w))),
   world_after (add e (fst (add_all es b w)) (snd (add_all es b w)))).
Proof. unfold add_all. rewrite fold_left_app. reflexivity. Qed.

(** [add] changes the stored items only. *)
Lemma add_all_frame (es : list Experience) (b : t) (w : World) :
  let b' := fst (add_all es b w) in
  batch_size b' = batch_size b /\
  Deque.maxlen (memory b') = Deque.maxlen (memory b) /\
  action_size b' = action_size b /\
  device b' = device b /\
  snd (add_all es b w) = w.
Proof.
  induction es as [|e es IH] using rev_ind; [simpl; auto|].
  rewrite add_all_snoc. simpl. simpl in IH. tauto.
Qed.

(** After the calls the buffer holds the last [maxlen] of the initial
    items followed by the added ones. *)
Lemma add_all_items (es : list Experience) (b : t) (w : World) :
  (len b <= Deque.maxlen (memory b))%nat ->
  Deque.items (memory (fst (add_all es b w))) =
  Deque.lastn (Deque.maxlen (memory b)) (Deque.items (memory b) ++ es).
Proof.
  intros Hb. induction es as [|e es IH] using rev_ind.
  - simpl. rewrite app_nil_r. symmetry. apply lastn_all. exact Hb.
  - rewrite add_all_snoc. simpl. rewrite app_assoc.
    destruct (add_all_frame es b w) as (_ & Hm & _).
    simpl in Hm. rewrite <- Hm. apply append_lastn. rewrite Hm. exact IH.
Qed.

(** What [__init__] returns when it returns. *)
Lemma init_inv (seeded : Z -> Random.state) (a n k s : Z) (dev : string)
    (w w' : World) (b : t) :
  __init__ seeded a n k s dev w = (Ok b, w') ->
  (0 <= n)%Z /\
  b = {| action_size := a;
         memory := {| Deque.maxlen := Z.to_nat n; Deque.items := [] |};
         batch_size := k; device := dev; seed := PyNone |} /\
  w' = seeded s.
Proof.
  unfold __init__, Deque.new. destruct (Z.ltb_spec n 0); simpl; intros E.
  - discriminate.
  - injection E as <- <-. auto.
Qed.

End AddFacts.

(** ** The selection of [random.sample] *)

Section RandomFacts.

Import Random.

Lemma set_item_length {A : Type} (pool : list A) (j : nat) (x : A) :
  length (set_item pool j x) = length pool.
Proof.
  revert j. induction pool as [|h t IH]; intros [|j]; simpl; auto.
Qed.

Lemma set_item_app {A : Type} (l1 : list A) (x y : A) (t : list A) :
  set_item (l1 ++ x :: t) (length l1) y = l1 ++ y :: t.
Proof. induction l1 as [|h l1 IH]; simpl; [reflexivity|]. now rewrite IH. Qed.

Lemma set_item_map {A B : Type} (f : A -> B) (pool : list A) (j : nat) (y : A) :
  set_item (map f pool) j (f y) = map f (set_item pool j y).
Proof.
  revert j. induction pool as [|h t IH]; intros [|j]; simpl; auto.
  now rewrite IH.
Qed.

Lemma firstn_snoc_nth {A : Type} (t : list A) (m : nat) (y : A) :
  nth_error t m = Some y -> firstn (S m) t = firstn m t ++ [y].
Proof.
  revert t. induction m as [|m IH]; intros [|a t] H; try discriminate.
  - simpl in H. injection H as ->. reflexivity.
  - simpl in H. change (firstn (S (S m)) (a :: t)) with (a :: firstn (S m) t).
    rewrite (IH t H). reflexivity.
Qed.

(** One round of the loop removes the drawn item from the eligible
    part of the pool and keeps the others. *)
Lemma draw_step_perm {A : Type} (pool : list A) (n j : nat) (x y : A) :
  (j < n)%nat ->
  nth_error pool j = Some x ->
  nth_error pool (n - 1) = Some y ->
  Permutation (firstn n pool) (x :: firstn (n - 1) (set_item pool j y)).
Proof.
  intros Hj Hx Hy.
  destruct (nth_error_split pool j Hx) as (l1 & t & -> & Hl1).
  subst j. rewrite set_item_app.
  rewrite !firstn_app.
  rewrite (@firstn_all2 _ n l1), (@firstn_all2 _ (n - 1) l1) by lia.
  remember (n - 1 - length l1)%nat as m eqn:Hm.
  replace (n - length l1)%nat with (S m) by lia.
  change (firstn (S m) (x :: t)) with (x :: firstn m t).
  destruct m as [|m'].
  - simpl. rewrite app_nil_r. apply Permutation_sym, Permutation_cons_append.
  - change (firstn (S m') (y :: t)) with (y :: firstn m' t).
    assert (Ht : nth_error t m' = Some y).
    { rewrite nth_error_app2 in Hy by lia.
      rewrite <- Hm in Hy. exact Hy. }
    rewrite (firstn_snoc_nth t m' y Ht).
    apply Permutation_sym.
    etransitivity; [apply Permutation_middle|].
    apply Permutation_app_head. apply perm_skip.
    apply Permutation_cons_append.
Qed.

(** With enough eligible entries the loop returns [k] items, which
    together with some others make up the eligible part of the pool. *)
Lemma draw_ok {A : Type} (k : nat) :
  forall (n : nat) (pool : list A) (g : state),
    (k <= n)%nat -> (n <= length pool)%nat ->
    exists res rest,
      fst (draw k n pool g) = Ok res /\
      length res = k /\
      Permutation (firstn n pool) (res ++ rest).
Proof.
  induction k as [|k IH]; intros n pool g Hk Hn.
  - exists [], (firstn n pool). simpl. auto.
  - simpl.
    assert (Hj : (g 0%nat mod n < n)%nat) by (apply Nat.mod_upper_bound; lia).
    destruct (nth_error pool (g 0%nat mod n)) as [x|] eqn:Ex.
    2: { apply nth_error_None in Ex. lia. }
    destruct (nth_error pool (n - 1)) as [y|] eqn:Ey.
    2: { apply nth_error_None in Ey. lia. }
    destruct (IH (n - 1)%nat (set_item pool (g 0%nat mod n) y) (fun i => g (S i)))
      as (res & rest & E & Hl & Hp).
    { lia. } { rewrite set_item_length. lia. }
    destruct (draw k (n - 1) _ _) as [r g2]. simpl in E. subst r.
    exists (x :: res), rest. simpl. repeat split.
    + now rewrite Hl.
    + etransitivity; [apply (draw_step_perm pool n _ x y Hj Ex Ey)|].
      now apply perm_skip.
Qed.

(** The loop commutes with a renaming of the pool entries. *)
Lemma draw_map {A B : Type} (f : A -> B) (k : nat) :
  forall (n : nat) (pool : list A) (g : state),
    draw k n (map f pool) g =
    (r <- fst (draw k n pool g) ;; Ok (map f r), snd (draw k n pool g)).
Proof.
  induction k as [|k IH]; intros n pool g; [reflexivity|].
  simpl. rewrite !nth_error_map.
  destruct (nth_error pool (g 0%nat mod n)) as [x|]; [|reflexivity].
  destruct (nth_error pool (n - 1)) as [y|]; [|reflexivity].
  simpl. rewrite set_item_map, IH.
  destruct (draw k (n - 1) _ _) as [[r|e] g2]; reflexivity.
Qed.

Lemma map_nth_error_seq {A : Type} (l : list A) :
  map (nth_error l) (seq 0 (length l)) = map Some l.
Proof.
  induction l as [|a l IH]; [reflexivity|].
  simpl. rewrite <- seq_shift, map_map. f_equal. rewrite <- IH.
  apply map_ext. reflexivity.
Qed.

Lemma items_at_lookup {A : Type} (l : list A) (positions : list nat) (r : list A) :
  map (nth_error l) positions = map Some r -> items_at l positions = r.
Proof.
  revert r. induction positions as [|i ps IH]; intros [|a r] H; try discriminate.
  - reflexivity.
  - simpl in H. injection H as Ha Hr. unfold items_at. simpl. rewrite Ha.
    simpl. f_equal. apply IH, Hr.
Qed.

(** [sample] reads the population at the positions that
    [sample_indices] selects, and both leave the generator in the same
    state. *)
Lemma sample_by_positions {A : Type} (l : list A) (k : Z) (g : state) :
  snd (sample l k g) = snd (sample_indices (length l) k g) /\
  fst (sample l k g) =
    (positions <- fst (sample_indices (length l) k g) ;; Ok (items_at l positions)).
Proof.
  unfold sample_indices, sample. rewrite length_seq.
  destruct ((0 <=? k)%Z && (k <=? Z.of_nat (length l))%Z)%bool; [|split; reflexivity].
  pose proof (draw_map (nth_error l) (Z.to_nat k) (length l) (seq 0 (length l)) g) as H1.
  pose proof (draw_map (@Some A) (Z.to_nat k) (length l) l g) as H2.
  rewrite map_nth_error_seq, H2 in H1.
  injection H1 as Hv Hs. split; [exact Hs|].
  destruct (fst (draw _ _ (seq 0 (length l)) g)) as [positions|e];
    destruct (fst (draw _ _ l g)) as [r|e']; simpl in *; try discriminate.
  - f_equal. symmetry. apply items_at_lookup. congruence.
  - congruence.
Qed.

(** Within its precondition [sample_indices] returns [k] pairwise
    distinct positions of the population. *)
Lemma sample_indices_ok (n : nat) (k : Z) (g : state) :
  (0 <= k <= Z.of_nat n)%Z ->
  exists positions,
    fst (sample_indices n k g) = Ok positions /\
    length positions = Z.to_nat k /\
    NoDup positions /\
    Forall (fun i => (i < n)%nat) positions.
Proof.
  intros Hk. unfold sample_indices, sample. rewrite length_seq.
  replace ((0 <=? k)%Z && (k <=? Z.of_nat n)%Z)%bool with true
    by (symmetry; apply andb_true_iff; split; apply Z.leb_le; lia).
  destruct (draw_ok (Z.to_nat k) n (seq 0 n) g) as (res & rest & E & Hl & Hp).
  { lia. } { rewrite length_seq. lia. }
  exists res. repeat split; auto.
  - rewrite firstn_all2 in Hp by (rewrite length_seq; lia).
    pose proof (Permutation_NoDup Hp (seq_NoDup n 0)) as Hnd.
    now apply NoDup_app_remove_r in Hnd.
  - rewrite firstn_all2 in Hp by (rewrite length_seq; lia).
    apply Forall_forall. intros i Hi.
    assert (In i (seq 0 n)) as Hin.
    { apply (Permutation_in i (Permutation_sym Hp)). apply in_or_app. now left. }
    apply in_seq in Hin. lia.
Qed.

(** Outside its precondition [sample] raises [ValueError] and draws
    nothing. *)
Lemma sample_rejects {A : Type} (l : list A) (k : Z) (g : state) :
  (k < 0 \/ Z.of_nat (length l) < k)%Z ->
  sample l k g = (Raise ValueError, g).
Proof.
  intros Hk. unfold sample.
  replace ((0 <=? k)%Z && (k <=? Z.of_nat (length l))%Z)%bool with false; [reflexivity|].
  symmetry. apply andb_false_iff.
  destruct Hk; [left; apply Z.leb_gt|right; apply Z.leb_gt]; lia.
Qed.

(** The drawn items come from the population. *)
Lemma items_at_incl {A : Type} (l : list A) (positions : list nat) :
  incl (items_at l positions) l.
Proof.
  intros x Hx. unfold items_at in Hx. apply in_flat_map in Hx.
  destruct Hx as (i & _ & Hi).
  destruct (nth_error l i) as [y|] eqn:E; [|contradiction].
  destruct Hi as [<-|[]]. eapply nth_error_In, E.
Qed.

Lemma items_at_length {A : Type} (l : list A) (positions : list nat) :
  Forall (fun i => (i < length l)%nat) positions ->
  length (items_at l positions) = length positions.
Proof.
  induction 1 as [|i ps Hi _ IH]; [reflexivity|].
  unfold items_at in *. simpl.
  destruct (nth_error l i) eqn:E.
  - simpl. now rewrite IH.
  - apply nth_error_None in E. lia.
Qed.

End RandomFacts.

(** ** [numpy.vstack] *)

Lemma vstack_uniform {A : Type} (c : nat) (arrays : list (list A)) :
  arrays <> [] ->
  Forall (fun r => length r = c) arrays ->
  Np.vstack arrays = Ok (Torch.T2 c arrays).
Proof.
  intros Hne Hall. destruct arrays as [|a rest]; [congruence|].
  unfold Np.vstack.
  assert (Ha : length a = c) by (inversion Hall; assumption).
  replace (forallb _ (a :: rest)) with true; [now rewrite Ha|].
  symmetry. apply forallb_forall. intros r Hr.
  rewrite Forall_forall in Hall. apply Nat.eqb_eq. rewrite (Hall r Hr). auto.
Qed.

Lemma vstack_scalars_ok {A : Type} (xs : list A) :
  xs <> [] ->
  Np.vstack_scalars xs = Ok (Torch.T2 1 (map (fun x => [x]) xs)).
Proof.
  intros Hne. unfold Np.vstack_scalars. apply vstack_uniform.
  - destruct xs; [congruence|discriminate].
  - apply Forall_forall. intros r Hr. apply in_map_iff in Hr.
    destruct Hr as (x & <- & _). reflexivity.
Qed.

(** ** [ReplayBuffer.sample] *)

Section SampleFacts.

Import ReplayBuffer.

Variable device_error : string -> option exn.

Lemma to_device_ok {A : Type} (device : string) (t : Torch.tensor A) :
  device_error device = None -> Torch.to_device device_error device t = Ok t.
Proof. intros H. unfold Torch.to_device. now rewrite H. Qed.

Lemma from_numpy_long_ok (xs : list Z) :
  Forall (fun x => Torch.in_int64 x = true) xs ->
  Torch.from_numpy_long (Torch.T2 1 (map (fun x => [x]) xs))
  = Ok (Torch.T2 1 (map (fun x => [x]) xs)).
Proof.
  intros Hall. unfold Torch.from_numpy_long.
  replace (forallb Torch.in_int64 _) with true; [reflexivity|].
  symmetry. apply forallb_forall. intros x Hx. simpl in Hx.
  apply in_concat in Hx. destruct Hx as (row & Hrow & Hx).
  apply in_map_iff in Hrow. destruct Hrow as (y & <- & Hy).
  destruct Hx as [<-|[]]. rewrite Forall_forall in Hall. now apply Hall.
Qed.

(** The columns of a non-empty draw of stackable experiences on a
    device tensors can be placed on. *)
Lemma columns_ok (S S' : nat) (device : string) (drawn : list Experience) :
  drawn <> [] ->
  Forall (stackable S S') drawn ->
  device_error device = None ->
  columns device_error device drawn = Ok (batch_with S S' drawn).
Proof.
  intros Hne Hall Hdev. unfold columns.
  assert (Hmap : forall (B : Type) (f : Experience -> B), map f drawn <> []).
  { intros B f. destruct drawn; [congruence|discriminate]. }
  rewrite (vstack_uniform S (map state drawn)); [| apply Hmap |].
  2: { apply Forall_forall. intros r Hr. apply in_map_iff in Hr.
       destruct Hr as (e & <- & He). rewrite Forall_forall in Hall.
       apply (Hall e He). }
  cbn [Py.bind]. rewrite (to_device_ok _ _ Hdev). cbn [Py.bind].
  rewrite (vstack_scalars_ok (map action drawn)) by apply Hmap. cbn [Py.bind].
  rewrite from_numpy_long_ok.
  2: { apply Forall_forall. intros x Hx. apply in_map_iff in Hx.
       destruct Hx as (e & <- & He). rewrite Forall_forall in Hall.
       apply (Hall e He). }
  cbn [Py.bind]. rewrite (to_device_ok _ _ Hdev). cbn [Py.bind].
  rewrite (vstack_scalars_ok (map reward drawn)) by apply Hmap. cbn [Py.bind].
  rewrite (to_device_ok _ _ Hdev). cbn [Py.bind].
  rewrite (vstack_uniform S' (map next_state drawn)); [| apply Hmap |].
  2: { apply Forall_forall. intros r Hr. apply in_map_iff in Hr.
       destruct Hr as (e & <- & He). rewrite Forall_forall in Hall.
       apply (Hall e He). }
  cbn [Py.bind]. rewrite (to_device_ok _ _ Hdev). cbn [Py.bind].
  rewrite (vstack_scalars_ok (map (fun e => done_to_float (done e)) drawn))
    by apply Hmap.
  cbn [Py.bind]. rewrite (to_device_ok _ _ Hdev). cbn [Py.bind].
  unfold batch_with. now rewrite !map_map.
Qed.

(** [sample] never writes to the buffer. *)
Lemma sample_self (b : t) (w : World) : self_after (sample device_error b w) = b.
Proof.
  unfold sample. destruct (Random.sample _ _ w). reflexivity.
Qed.

(** With [1 <= batch_size <= len], well-formed contents and a device
    tensors can be placed on, [sample] returns the batch of the
    experiences at [batch_size] pairwise distinct positions of the
    buffer. *)
Lemma sample_ok (S S' : nat) (b : t) (w : World) :
  well_formed S S' b ->
  device_error (device b) = None ->
  (0 < batch_size b <= Z.of_nat (len b))%Z ->
  exists positions,
    fst (Random.sample_indices (len b) (batch_size b) w) = Ok positions /\
    length positions = Z.to_nat (batch_size b) /\
    NoDup positions /\
    Forall (fun i => (i < len b)%nat) positions /\
    length (at_positions b positions) = Z.to_nat (batch_size b) /\
    value (sample device_error b w) = Ok (batch_with S S' (at_positions b positions)).
Proof.
  intros Hwf Hdev Hk.
  destruct (sample_indices_ok (len b) (batch_size b) w) as (ps & E & Hl & Hnd & Hlt);
    [lia|].
  exists ps. repeat split; auto.
  - unfold at_positions. rewrite items_at_length; auto.
  - unfold sample.
    destruct (sample_by_positions (Deque.items (memory b)) (batch_size b) w) as [_ Hv].
    fold (len b) in Hv. unfold Deque.len in Hv. unfold len, Deque.len in E.
    rewrite E in Hv. simpl in Hv.
    destruct (Random.sample _ _ w) as [r w']. simpl in *. subst r. simpl.
    apply columns_ok; [| |exact Hdev].
    + intros Hnil.
      assert (Hlen : length (Random.items_at (Deque.items (memory b)) ps) = length ps)
        by (apply items_at_length; exact Hlt).
      unfold at_positions in Hnil. rewrite Hnil in Hlen. simpl in Hlen. lia.
    + apply Forall_forall. intros e He.
      apply items_at_incl in He. unfold well_formed in Hwf.
      rewrite Forall_forall in Hwf. apply Hwf, He.
Qed.

(** With [batch_size] larger than the length, or not positive,
    [sample] raises [ValueError] and changes nothing: [random.sample]
    refuses a size that is negative or exceeds the population, and
    [np.vstack] refuses the empty draw of size zero. *)
Lemma sample_rejected (b : t) (w : World) :
  (batch_size b <= 0 \/ Z.of_nat (len b) < batch_size b)%Z ->
  sample device_error b w
  = {| value := Raise ValueError; self_after := b; world_after := w |}.
Proof.
  intros Hk. unfold sample.
  destruct (Z.eq_dec (batch_size b) 0) as [E|Hnz].
  - rewrite E. unfold Random.sample. simpl.
    destruct (Z.leb_spec 0 (Z.of_nat (length (Deque.items (memory b))))); [|lia].
    reflexivity.
  - rewrite sample_rejects; [reflexivity|].
    unfold len, Deque.len in Hk. lia.
Qed.

End SampleFacts.

(** ** Construction followed by additions *)

Section InitAdd.

Import ReplayBuffer.

Variable seeded : Z -> Random.state.

(** The contents, the length and the unchanged attributes of a buffer
    constructed with capacity [n] after the experiences [es] were
    added. *)
Lemma init_add_all (a n k s : Z) (dev : string) (w w' : World) (b : t)
    (es : list Experience) :
  __init__ seeded a n k s dev w = (Ok b, w') ->
  let b' := fst (add_all es b w') in
  Deque.items (memory b') = skipn (length es - Z.to_nat n) es /\
  len b' = Nat.min (Z.to_nat n) (length es) /\
  Deque.maxlen (memory b') = Z.to_nat n /\
  batch_size b' = k.
Proof.
  intros Hinit b'. apply init_inv in Hinit. destruct Hinit as (Hn & -> & ->).
  assert (Hitems : Deque.items (memory b') = skipn (length es - Z.to_nat n) es).
  { unfold b'. rewrite add_all_items by (unfold len, Deque.len; simpl; lia).
    reflexivity. }
  split; [exact Hitems|]. split.
  { unfold len, Deque.len. rewrite Hitems, length_skipn. lia. }
  unfold b'.
  destruct (add_all_frame es
      {| action_size := a;
         memory := {| Deque.maxlen := Z.to_nat n; Deque.items := [] |};
         batch_size := k; device := dev; seed := PyNone |} (seeded s))
      as (Hk & Hm & _).
  simpl in Hk, Hm. auto.
Qed.

(** An [add] on a buffer whose length equals its bound. *)
Lemma add_when_full (b : t) (e : Experience) (w : World) :
  len b = Deque.maxlen (memory b) ->
  Deque.items (memory (self_after (add e b w))) = tl (Deque.items (memory b) ++ [e]).
Proof.
  intros H. simpl. rewrite length_app. simpl.
  fold (Deque.len (memory b)). fold (len b). rewrite H.
  replace (Deque.maxlen (memory b) <? Deque.maxlen (memory b) + 1)%nat with true
    by (symmetry; apply Nat.ltb_lt; lia).
  reflexivity.
Qed.

End InitAdd.

(** ** The replay buffer: claims *)

Section ReplayBufferClaims.

Import ReplayBuffer.

Variable seeded : Z -> Random.state.
Variable device_error : string -> option exn.

(** C1.  A buffer constructed with capacity [n] never holds more than
    [n] experiences, whatever is added: after the experiences [es] it
    holds the last [n] of them in insertion order.  In particular after
    [n + j] additions its length is [n], the oldest [j] experiences are
    gone and the newest [n] remain in order; and an [add] on a full
    buffer drops exactly the oldest stored experience. *)
Theorem add_keeps_newest (a n k s : Z) (dev : string) (w w' : World) (b : t)
    (es : list Experience) :
  __init__ seeded a n k s dev w = (Ok b, w') ->
  let b' := fst (add_all es b w') in
  (len b' <= Z.to_nat n)%nat /\
  Deque.items (memory b') = skipn (length es - Z.to_nat n) es /\
  (forall j, length es = (Z.to_nat n + j)%nat ->
     len b' = Z.to_nat n /\
     Deque.items (memory b') = skipn j es /\
     es = firstn j es ++ Deque.items (memory b')) /\
  (forall e w2, len b' = Z.to_nat n ->
     let b'' := self_after (add e b' w2) in
     len b'' = Z.to_nat n /\
     Deque.items (memory b'') = tl (Deque.items (memory b') ++ [e]) /\
     ((0 < n)%Z -> Deque.items (memory b'') = tl (Deque.items (memory b')) ++ [e])).
Proof.
  intros Hinit b'.
  destruct (init_add_all seeded a n k s dev w w' b es Hinit)
    as (Hitems & Hlen & Hmax & _).
  fold b' in Hitems, Hlen, Hmax.
  apply init_inv in Hinit. destruct Hinit as (Hn & _ & _).
  split; [lia|]. split; [exact Hitems|]. split.
  - intros j Hj. split; [lia|].
    assert (E : Deque.items (memory b') = skipn j es)
      by (rewrite Hitems; f_equal; lia).
    split; [exact E|]. rewrite E. symmetry. apply firstn_skipn.
  - intros e w2 Hfull b''.
    assert (E : Deque.items (memory b'') = tl (Deque.items (memory b') ++ [e]))
      by (apply add_when_full; congruence).
    assert (Hne : (0 < n)%Z -> Deque.items (memory b') <> []).
    { intros Hpos Hnil. unfold len, Deque.len in Hfull. rewrite Hnil in Hfull.
      simpl in Hfull. lia. }
    split; [|split; [exact E|]].
    + unfold len, Deque.len in *. rewrite E.
      destruct (Deque.items (memory b')) as [|x l]; simpl in *; [lia|].
      rewrite length_app. simpl. lia.
    + intros Hpos. rewrite E.
      destruct (Deque.items (memory b')) as [|x l]; [now destruct (Hne Hpos)|].
      reflexivity.
Qed.


(** C8.  A call of [sample] that succeeds leaves the buffer as it was:
    the same length, the same experiences in the same order, and
    therefore the same behaviour of every later [add]. *)
Theorem sample_leaves_buffer (b : t) (w : World) (r : batch) :
  value (sample device_error b w) = Ok r ->
  let b' := self_after (sample device_error b w) in
  b' = b /\
  len b' = len b /\
  Deque.items (memory b') = Deque.items (memory b) /\
  (forall (es : list Experience) (w2 : World),
      fst (add_all es b' w2) = fst (add_all es b w2)).
Proof.
  intros _ b'. unfold b'. rewrite sample_self. repeat split; reflexivity.
Qed.

(** C4, as amended.  Take a buffer with a [batch_size] of at least one
    whose stored states all have one length, whose stored next states
    all have one length, whose stored actions all lie in the signed
    64-bit range, and whose device accepts tensors.  When
    [is_ready_to_sample] holds, [sample] succeeds: it reads the buffer
    at [batch_size] pairwise distinct positions, and each of the five
    returned columns has one row per drawn experience, in the order of
    the draw. *)
Theorem sample_batch_size_distinct (S S' : nat) (b : t) (w : World) :
  well_formed S S' b ->
  device_error (device b) = None ->
  (0 < batch_size b)%Z ->
  value (is_ready_to_sample b w) = Ok true ->
  exists (positions : list nat) (r : batch),
    fst (Random.sample_indices (len b) (batch_size b) w) = Ok positions /\
    length positions = Z.to_nat (batch_size b) /\
    NoDup positions /\
    Forall (fun i => (i < len b)%nat) positions /\
    value (sample device_error b w) = Ok r /\
    r = batch_with S S' (at_positions b positions) /\
    length (at_positions b positions) = Z.to_nat (batch_size b) /\
    Torch.nrows (states r) = Z.to_nat (batch_size b) /\
    Torch.nrows (actions r) = Z.to_nat (batch_size b) /\
    Torch.nrows (rewards r) = Z.to_nat (batch_size b) /\
    Torch.nrows (next_states r) = Z.to_nat (batch_size b) /\
    Torch.nrows (dones r) = Z.to_nat (batch_size b).
Proof.
  intros Hwf Hdev Hpos Hready.
  assert (Hlt : (batch_size b < Z.of_nat (len b))%Z).
  { unfold is_ready_to_sample in Hready. simpl in Hready.
    injection Hready as Hgt. rewrite Z.gtb_ltb in Hgt. now apply Z.ltb_lt. }
  destruct (sample_ok device_error S S' b w Hwf Hdev)
    as (ps & E & Hl & Hnd & Hin & Hd & Hv); [lia|].
  exists ps, (batch_with S S' (at_positions b ps)).
  repeat split; auto; simpl; rewrite length_map; exact Hd.
Qed.

(** C5, as amended.  Take a buffer with a [batch_size] of at least one
    whose stored states all have one length, whose stored next states
    all have one length, whose stored actions all lie in the signed
    64-bit range, and whose device accepts tensors.  Then [sample]
    fails exactly when [batch_size] exceeds the length of the buffer;
    the failure is an exception handed to the caller, and the buffer
    is as it was.  The gate [is_ready_to_sample] is stricter than this
    precondition: when the length equals [batch_size] the gate answers
    [False] and [sample] succeeds all the same. *)
Theorem sample_fails_iff_too_large (S S' : nat) (b : t) (w : World) :
  well_formed S S' b ->
  device_error (device b) = None ->
  (0 < batch_size b)%Z ->
  (is_ok (value (sample device_error b w)) = false <->
     (Z.of_nat (len b) < batch_size b)%Z) /\
  (is_ok (value (sample device_error b w)) = false ->
     sample device_error b w
     = {| value := Raise ValueError; self_after := b; world_after := w |}) /\
  (Z.of_nat (len b) = batch_size b ->
     value (is_ready_to_sample b w) = Ok false /\
     is_ok (value (sample device_error b w)) = true).
Proof.
  intros Hwf Hdev Hpos.
  assert (Hok : (batch_size b <= Z.of_nat (len b))%Z ->
                is_ok (value (sample device_error b w)) = true).
  { intros Hle.
    destruct (sample_ok device_error S S' b w Hwf Hdev)
      as (ps & _ & _ & _ & _ & _ & Hv); [lia|].
    now rewrite Hv. }
  assert (Hiff : is_ok (value (sample device_error b w)) = false <->
                 (Z.of_nat (len b) < batch_size b)%Z).
  { split.
    - intros Hfail.
      destruct (Z.lt_ge_cases (Z.of_nat (len b)) (batch_size b)) as [|Hge]; [assumption|].
      rewrite Hok in Hfail by lia. discriminate.
    - intros Hk. rewrite sample_rejected by (now right). reflexivity. }
  split; [exact Hiff|]. split.
  - intros Hfail. apply sample_rejected. right. now apply Hiff.
  - intros Heq. split; [|apply Hok; lia].
    unfold is_ready_to_sample. simpl. f_equal.
    rewrite Z.gtb_ltb. apply Z.ltb_ge. lia.
Qed.

End ReplayBufferClaims.

(** *** Instances and counterexamples *)

Section ReplayBufferScenarios.

Import ReplayBuffer Scenario.

(** C1 on the end-to-end scenario: capacity 5, six experiences tagged
    0 to 5; the one tagged 0 is gone and 1 to 5 remain in order. *)
Lemma add_keeps_newest_witness :
  __init__ seeded 4 5 2 0 "cpu" boot = (Ok fresh, seeded 0) /\
  len (fst (add_all (map tagged [0; 1; 2; 3; 4; 5]%Z) fresh (seeded 0))) = 5%nat /\
  Deque.items (memory (fst (add_all (map tagged [0; 1; 2; 3; 4; 5]%Z) fresh (seeded 0))))
  = map tagged [1; 2; 3; 4; 5]%Z.
Proof.
  split; [reflexivity|].
  destruct (add_keeps_newest seeded 4 5 2 0 "cpu" boot (seeded 0) fresh
              (map tagged [0; 1; 2; 3; 4; 5]%Z) eq_refl) as (_ & Hitems & Hk & _).
  split; [exact (proj1 (Hk 1%nat eq_refl)) | exact Hitems].
Defined.

(** C8 on the scenario: a successful [sample] of the buffer holding
    the experiences tagged 0 to 3. *)
Lemma sample_leaves_buffer_witness :
  value (sample device_error four (seeded 0)) = Ok (batch_of 2 (map tagged [0; 1]%Z)) /\
  self_after (sample device_error four (seeded 0)) = four.
Proof.
  split; [reflexivity|].
  exact (proj1 (sample_leaves_buffer device_error four (seeded 0)
                  (batch_of 2 (map tagged [0; 1]%Z)) eq_refl)).
Defined.

Lemma four_well_formed : well_formed 2 2 four.
Proof. repeat constructor. Defined.

(** C4 on the scenario: the buffer holds four experiences and
    [batch_size] is 2. *)
Lemma sample_batch_size_distinct_witness :
  well_formed 2 2 four /\ device_error (device four) = None /\
  (0 < batch_size four)%Z /\
  value (is_ready_to_sample four (seeded 0)) = Ok true /\
  exists (positions : list nat) (r : batch),
    fst (Random.sample_indices (len four) (batch_size four) (seeded 0)) = Ok positions /\
    length positions = 2%nat /\ NoDup positions /\
    value (sample device_error four (seeded 0)) = Ok r /\
    Torch.nrows (states r) = 2%nat.
Proof.
  split; [exact four_well_formed|]. split; [reflexivity|].
  split; [reflexivity|]. split; [reflexivity|].
  destruct (sample_batch_size_distinct device_error 2 2 four (seeded 0)
              four_well_formed eq_refl eq_refl eq_refl)
    as (ps & r & E & Hl & Hnd & _ & Hv & _ & _ & Hs & _).
  exists ps, r. auto.
Defined.

(** C4, the counterexample.  Each of these buffers is ready, and
    [sample] raises instead of returning [batch_size] rows: with
    [batch_size = 0] ([np.vstack] refuses the empty draw); with stored
    states of three different lengths, whatever the draw ([np.vstack]
    refuses rows of different lengths); with stored actions [2 ^ 63]
    ([torch.from_numpy] refuses the unsigned column); and on a device
    that does not exist. *)
Lemma sample_fails_on_empty_batch :
  (let b := buffer 5 0 (map tagged [0]%Z) in
   value (is_ready_to_sample b (seeded 0)) = Ok true /\
   value (sample device_error b (seeded 0)) = Raise ValueError) /\
  (value (is_ready_to_sample ragged (seeded 0)) = Ok true /\
   (0 < batch_size ragged)%Z /\
   value (sample device_error ragged (seeded 0)) = Raise ValueError /\
   value (sample device_error ragged (seeded 1)) = Raise ValueError /\
   value (sample device_error ragged (seeded 2)) = Raise ValueError) /\
  (value (is_ready_to_sample wide_actions (seeded 0)) = Ok true /\
   (0 < batch_size wide_actions)%Z /\
   value (sample device_error wide_actions (seeded 0)) = Raise TypeError) /\
  (value (is_ready_to_sample elsewhere (seeded 0)) = Ok true /\
   (0 < batch_size elsewhere)%Z /\
   value (sample device_error elsewhere (seeded 0)) = Raise RuntimeError).
Proof. repeat split. Qed.

(** C5, the counterexample.  A buffer that holds exactly [batch_size]
    experiences does not hold more than [batch_size] of them, and the
    gate says so, yet [sample] does not fail.  And [sample] fails
    although [batch_size] exceeds no length: with [batch_size = 0],
    with stored states of different lengths, with stored actions
    [2 ^ 63], and on a device that does not exist. *)
Lemma sample_succeeds_when_not_ready :
  (let b := buffer 5 2 (map tagged [0; 1]%Z) in
   len b = 2%nat /\ batch_size b = 2%Z /\
   value (is_ready_to_sample b (seeded 0)) = Ok false /\
   value (sample device_error b (seeded 0)) = Ok (batch_of 2 (map tagged [0; 1]%Z))) /\
  (let b := buffer 5 0 (map tagged [0; 1]%Z) in
   len b = 2%nat /\ batch_size b = 0%Z /\
   value (sample device_error b (seeded 0)) = Raise ValueError) /\
  (len ragged = 3%nat /\ batch_size ragged = 2%Z /\
   value (sample device_error ragged (seeded 0)) = Raise ValueError) /\
  (len wide_actions = 3%nat /\ batch_size wide_actions = 2%Z /\
   value (sample device_error wide_actions (seeded 0)) = Raise TypeError) /\
  (len elsewhere = 4%nat /\ batch_size elsewhere = 2%Z /\
   value (sample device_error elsewhere (seeded 0)) = Raise RuntimeError).
Proof. repeat split. Qed.

(** C5 as amended, on a buffer shorter than [batch_size]. *)
Lemma sample_fails_iff_too_large_witness :
  let b := buffer 5 2 (map tagged [0]%Z) in
  well_formed 2 2 b /\ device_error (device b) = None /\ (0 < batch_size b)%Z /\
  sample device_error b (seeded 0) =
    {| value := Raise ValueError; self_after := b; world_after := seeded 0 |}.
Proof.
  intros b.
  assert (Hwf : well_formed 2 2 b) by repeat constructor.
  split; [exact Hwf|]. split; [reflexivity|]. split; [reflexivity|].
  exact (proj1 (proj2 (sample_fails_iff_too_large device_error 2 2 b (seeded 0)
                         Hwf eq_refl eq_refl)) eq_refl).
Defined.

(** C9 on a concrete run.  The buffer [four] was constructed with
    seed 0 and filled; its attribute [seed] holds [None], the result
    of [random.seed].  Sampled right away it returns the experiences
    tagged 0 and 1.  When a second buffer is constructed with seed 1
    before that call, or when a second buffer is sampled before it, the
    same call on the same buffer returns other experiences. *)
Lemma sample_affected_by_other_buffer :
  __init__ seeded 4 5 2 0 "cpu" boot = (Ok fresh, seeded 0) /\
  seed fresh = PyNone /\
  add_all (map tagged [0; 1; 2; 3]%Z) fresh (seeded 0) = (four, seeded 0) /\
  value (sample device_error four (seeded 0)) = Ok (batch_of 2 (map tagged [0; 1]%Z)) /\
  __init__ seeded 4 5 2 1 "cpu" (seeded 0) = (Ok fresh, seeded 1) /\
  value (sample device_error four (seeded 1)) = Ok (batch_of 2 (map tagged [1; 2]%Z)) /\
  value (sample device_error four (world_after (sample device_error four (seeded 0))))
    = Ok (batch_of 2 (map tagged [2; 0]%Z)) /\
  value (sample device_error four (seeded 1))
    <> value (sample device_error four (seeded 0)) /\
  value (sample device_error four (world_after (sample device_error four (seeded 0))))
    <> value (sample device_error four (seeded 0)).
Proof.
  repeat split; try reflexivity; intros H; vm_compute in H; discriminate H.
Qed.

End ReplayBufferScenarios.

(** ** Layers and their shapes *)

Section TorchFacts.

Import Torch.

Variable allocates : Z -> Z -> bool.

Lemma take_draws_length (n : nat) (g : Generator) : length (fst (take_draws n g)) = n.
Proof. simpl. now rewrite length_map, length_seq. Qed.

Lemma take_rows_shape (r c : nat) :
  forall g : Generator,
    length (fst (take_rows r c g)) = r /\
    Forall (fun row => length row = c) (fst (take_rows r c g)).
Proof.
  induction r as [|r IH]; intros g; simpl; [auto|].
  destruct (take_rows r c (fun i => g (c + i)%nat)) as [rows g2] eqn:E.
  specialize (IH (fun i => g (c + i)%nat)). rewrite E in IH. simpl in *.
  destruct IH as [Hl Hall]. split; [now rewrite Hl|].
  constructor; [now rewrite length_map, length_seq | exact Hall].
Qed.

Lemma in_int64_spec (z : Z) : in_int64 z = true <-> (- 2 ^ 63 <= z < 2 ^ 63)%Z.
Proof.
  unfold in_int64. rewrite andb_true_iff, Z.leb_le, Z.ltb_lt. tauto.
Qed.

Lemma as_size_inv (a : object) (z : Z) :
  as_size a = Ok z -> a = Int z /\ in_int64 z = true.
Proof.
  destruct a as [i| | | | |]; simpl; try discriminate.
  destruct (in_int64 i) eqn:E; [|discriminate].
  intros H. injection H as <-. auto.
Qed.

Lemma as_size_ok (z : Z) : size_ok z -> as_size (Int z) = Ok z.
Proof.
  intros Hz. simpl. replace (in_int64 z) with true; [reflexivity|].
  symmetry. apply in_int64_spec. unfold size_ok in Hz. lia.
Qed.

(** What a successful [nn.Linear(a, b)] tells about its arguments and
    about the layer. *)
Lemma nn_Linear_inv (a b : object) (g : Generator) (p : Linear * Generator) :
  nn_Linear allocates a b g = Ok p ->
  exists i o : Z,
    a = Int i /\ b = Int o /\ (0 <= i)%Z /\ (0 <= o)%Z /\
    in_features (fst p) = Z.to_nat i /\
    out_features (fst p) = Z.to_nat o /\
    Linear_ok (fst p).
Proof.
  unfold nn_Linear.
  destruct (as_size a) as [i|e] eqn:Ea; cbn [Py.bind]; [|discriminate].
  destruct (as_size b) as [o|e] eqn:Eb; cbn [Py.bind]; [|discriminate].
  apply as_size_inv in Ea, Eb. destruct Ea as [-> _]. destruct Eb as [-> _].
  destruct (Z.ltb_spec i 0); simpl; [discriminate|].
  destruct (Z.ltb_spec o 0); simpl; [discriminate|].
  destruct (allocates o i); [|discriminate].
  pose proof (take_rows_shape (Z.to_nat o) (Z.to_nat i) g) as [Hl Hall].
  destruct (take_rows (Z.to_nat o) (Z.to_nat i) g) as [w g1].
  intros E. injection E as <-. exists i, o. simpl in *.
  repeat split; auto. simpl. now rewrite length_map, length_seq.
Qed.

(** A successful [nn.Linear(i, o)] was given sizes it takes, and the
    layer could be allocated. *)
Lemma nn_Linear_bounds (i o : Z) (g : Generator) (p : Linear * Generator) :
  nn_Linear allocates (Int i) (Int o) g = Ok p ->
  size_ok i /\ size_ok o /\ allocates o i = true.
Proof.
  unfold nn_Linear.
  destruct (as_size (Int i)) as [i'|e] eqn:Ea; cbn [Py.bind]; [|discriminate].
  destruct (as_size (Int o)) as [o'|e] eqn:Eb; cbn [Py.bind]; [|discriminate].
  apply as_size_inv in Ea, Eb. destruct Ea as [Ei Hi]. destruct Eb as [Eo Ho].
  injection Ei as <-. injection Eo as <-.
  apply in_int64_spec in Hi, Ho.
  destruct (Z.ltb_spec i 0); simpl; [discriminate|].
  destruct (Z.ltb_spec o 0); simpl; [discriminate|].
  destruct (allocates o i); [|discriminate].
  intros _. unfold size_ok. repeat split; lia.
Qed.

(** [nn.Linear] accepts the sizes it takes when the layer can be
    allocated. *)
Lemma nn_Linear_ok (i o : Z) (g : Generator) :
  size_ok i -> size_ok o -> allocates o i = true ->
  exists p, nn_Linear allocates (Int i) (Int o) g = Ok p /\
            in_features (fst p) = Z.to_nat i /\
            out_features (fst p) = Z.to_nat o /\
            Linear_ok (fst p).
Proof.
  intros Hi Ho Hal.
  destruct (nn_Linear allocates (Int i) (Int o) g) as [p|e] eqn:E.
  - exists p. destruct (nn_Linear_inv _ _ _ _ E) as (i' & o' & Ei & Eo & _ & _ & H).
    injection Ei as <-. injection Eo as <-. tauto.
  - exfalso. unfold nn_Linear in E.
    rewrite (as_size_ok i Hi), (as_size_ok o Ho) in E. cbn [Py.bind] in E.
    unfold size_ok in Hi, Ho.
    destruct (Z.ltb_spec i 0); [lia|]. destruct (Z.ltb_spec o 0); [lia|]. simpl in E.
    rewrite Hal in E.
    destruct (take_rows (Z.to_nat o) (Z.to_nat i) g). discriminate.
Qed.

Lemma xavier_normal_shape (l : Linear) (g : Generator) :
  Linear_ok l ->
  in_features (fst (xavier_normal_ l g)) = in_features l /\
  out_features (fst (xavier_normal_ l g)) = out_features l /\
  Linear_ok (fst (xavier_normal_ l g)).
Proof.
  intros (Hw & Hb & Hr). unfold xavier_normal_.
  pose proof (take_rows_shape (out_features l) (in_features l) g) as [Hl Hall].
  destruct (take_rows (out_features l) (in_features l) g) as [w g1].
  simpl in *. repeat split; auto.
Qed.

Lemma affine_length (l : Linear) (x : list Q) :
  Linear_ok l -> length (affine l x) = out_features l.
Proof.
  intros (Hw & Hb & _). unfold affine.
  rewrite length_map, length_combine. lia.
Qed.

Lemma relu1_nonneg (x : Q) : 0 <= relu1 x.
Proof.
  unfold relu1. destruct (Qle_bool x 0) eqn:E; [apply Qle_refl|].
  apply Qlt_le_weak, Qnot_le_lt. intros H. apply Qle_bool_iff in H. congruence.
Qed.

(** A layer applied to a tensor whose last dimension fits. *)
Lemma linear_shape (l : Linear) (x : tensor Q) :
  Linear_ok l ->
  last_dim x = in_features l ->
  exists y, linear l x = Ok y /\
            last_dim y = out_features l /\
            batch_dim y = batch_dim x /\
            well_shaped y.
Proof.
  intros Hl Hx. destruct x as [v|c rows]; simpl in *.
  - rewrite Hx, Nat.eqb_refl. eexists. repeat split.
    simpl. now apply affine_length.
  - rewrite Hx, Nat.eqb_refl. eexists. repeat split; simpl.
    + now rewrite length_map.
    + apply Forall_forall. intros r Hr. apply in_map_iff in Hr.
      destruct Hr as (r0 & <- & _). now apply affine_length.
Qed.

Lemma relu_shape (x : tensor Q) :
  last_dim (relu x) = last_dim x /\
  batch_dim (relu x) = batch_dim x /\
  (well_shaped x -> well_shaped (relu x)) /\
  Forall (fun a => 0 <= a) (entries (relu x)).
Proof.
  destruct x as [v|c rows]; simpl.
  - rewrite length_map. repeat split; auto.
    apply Forall_forall. intros a Ha. apply in_map_iff in Ha.
    destruct Ha as (a0 & <- & _). apply relu1_nonneg.
  - rewrite length_map. repeat split; auto.
    + intros H. apply Forall_forall. intros r Hr. apply in_map_iff in Hr.
      destruct Hr as (r0 & <- & Hr0). rewrite length_map.
      rewrite Forall_forall in H. now apply H.
    + apply Forall_forall. intros a Ha. apply in_concat in Ha.
      destruct Ha as (r & Hr & Ha). apply in_map_iff in Hr.
      destruct Hr as (r0 & <- & _). apply in_map_iff in Ha.
      destruct Ha as (a0 & <- & _). apply relu1_nonneg.
Qed.

(** Layers that fit, each followed by the activation. *)
Lemma relu_layers_shape (layers : list Linear) :
  forall (i o : nat) (x : tensor Q),
    chain i layers o ->
    last_dim x = i ->
    exists y, relu_layers layers x = Ok y /\
              last_dim y = o /\
              batch_dim y = batch_dim x /\
              (layers <> [] -> well_shaped y /\ Forall (fun a => 0 <= a) (entries y)).
Proof.
  induction layers as [|l rest IH]; intros i o x Hc Hx; simpl in *.
  - exists x. repeat split; congruence.
  - destruct Hc as (Hl & Hi & Hc).
    destruct (linear_shape l x Hl) as (y & -> & Hy & Hb & Hw); [congruence|].
    simpl. destruct (relu_shape y) as (Hd & Hbr & Hwr & Hnn).
    destruct (IH (out_features l) o (relu y) Hc) as (z & Ez & Hz & Hbz & Hrest);
      [congruence|].
    exists z. repeat split; auto; try congruence.
    + destruct rest as [|l' rest']; [|apply Hrest; discriminate].
      simpl in Ez. injection Ez as <-. auto.
    + destruct rest as [|l' rest']; [|apply Hrest; discriminate].
      simpl in Ez. injection Ez as <-. auto.
Qed.

(** A tensor of rank one stays of rank one through the layers. *)
Lemma linear_rank1 (l : Linear) (v : list Q) (y : tensor Q) :
  linear l (T1 v) = Ok y -> exists u, y = T1 u.
Proof.
  simpl. destruct (length v =? in_features l)%nat; [|discriminate].
  intros E. injection E as <-. eauto.
Qed.

Lemma relu_layers_rank1 (layers : list Linear) :
  forall (v : list Q) (y : tensor Q),
    relu_layers layers (T1 v) = Ok y -> exists u, y = T1 u.
Proof.
  induction layers as [|l rest IH]; intros v y.
  - simpl. intros E. injection E as <-. eauto.
  - change (relu_layers (l :: rest) (T1 v))
      with (z <- linear l (T1 v) ;; relu_layers rest (relu z)).
    destruct (linear l (T1 v)) as [z|e] eqn:E; [|discriminate].
    destruct (linear_rank1 _ _ _ E) as (u & ->). apply IH.
Qed.

End TorchFacts.

(** ** Construction of the networks *)

Section ConstructionFacts.

Import Torch Layers.

Variable allocates : Z -> Z -> bool.

Lemma last_map_Int (zs : list Z) (d : Z) : last (map Int zs) (Int d) = Int (last zs d).
Proof.
  induction zs as [|z zs IH]; [reflexivity|].
  destruct zs as [|z' zs']; [reflexivity|]. exact IH.
Qed.

Lemma last_default {A : Type} (l : list A) (d d' : A) :
  l <> [] -> last l d = last l d'.
Proof.
  induction l as [|a l IH]; intros Hne; [congruence|].
  destruct l as [|b l']; [reflexivity|]. apply IH. discriminate.
Qed.

Lemma last_in {A : Type} (l : list A) (d : A) : l <> [] -> In (last l d) l.
Proof.
  intros Hne. destruct (exists_last Hne) as (l' & x & ->).
  rewrite last_last. apply in_or_app. right. now left.
Qed.

Ltac forall_hyps :=
  unfold allocatable, steps; cbn [combine tl];
  repeat (apply Forall_cons; [cbn [fst snd]; assumption|]);
  apply Forall_nil.

Lemma steps_cons (a b : Z) (rest : list Z) :
  steps (a :: b :: rest) = (a, b) :: steps (b :: rest).
Proof. reflexivity. Qed.

Lemma hidden_layers_cons (a b : object) (rest : list object) (g : Generator) :
  hidden_layers allocates (a :: b :: rest) g =
  (p <- nn_Linear allocates a b g ;;
   q <- hidden_layers allocates (b :: rest) (snd p) ;;
   Ok (fst p :: fst q, snd q)).
Proof. reflexivity. Qed.

(** When the comprehension over two or more units succeeds, the units
    are integers of sizes [nn.Linear] takes, and every layer between
    two consecutive units could be allocated. *)
Lemma hidden_layers_inv (units : list object) :
  forall (g : Generator) (p : list Linear * Generator),
    hidden_layers allocates units g = Ok p ->
    (2 <= length units)%nat ->
    exists zs, units = map Int zs /\ Forall (fun z => 0 <= z)%Z zs /\
               Forall size_ok zs /\ allocatable allocates (steps zs).
Proof.
  induction units as [|a rest IH]; intros g p E Hlen; [simpl in Hlen; lia|].
  destruct rest as [|b rest']; [simpl in Hlen; lia|].
  rewrite hidden_layers_cons in E.
  destruct (nn_Linear allocates a b g) as [p1|e] eqn:E1; cbn [Py.bind] in E; [|discriminate].
  destruct (nn_Linear_inv _ _ _ _ _ E1) as (i & o & -> & -> & Hi & Ho & _).
  destruct (nn_Linear_bounds _ _ _ _ _ E1) as (Hsi & Hso & Hal).
  destruct (hidden_layers allocates (Int o :: rest') (snd p1)) as [q|e] eqn:E2;
    cbn [Py.bind] in E; [|discriminate].
  destruct rest' as [|c rest''].
  - exists [i; o]. split; [reflexivity|].
    split; [forall_hyps|]. split; forall_hyps.
  - destruct (IH _ _ E2) as (zs & Hzs & Hall & Hsz & Hst); [simpl; lia|].
    exists (i :: zs). split; [simpl; now rewrite Hzs|].
    split; [constructor; assumption|].
    split; [constructor; assumption|].
    destruct zs as [|z zs']; [discriminate|].
    simpl in Hzs. injection Hzs as Hz _. subst z.
    rewrite steps_cons. constructor; assumption.
Qed.

(** On units of sizes [nn.Linear] takes, with layers that can be
    allocated, the comprehension succeeds and its layers fit from the
    first unit to the last. *)
Lemma hidden_layers_ok (zs : list Z) :
  forall g : Generator,
    Forall size_ok zs ->
    allocatable allocates (steps zs) ->
    exists p, hidden_layers allocates (map Int zs) g = Ok p /\
              length (fst p) = (length zs - 1)%nat /\
              forall d, chain (Z.to_nat (hd d zs)) (fst p) (Z.to_nat (last zs d)).
Proof.
  induction zs as [|a rest IH]; intros g Hall Hal.
  - exists ([], g). simpl. auto.
  - destruct rest as [|b rest'].
    + exists ([], g). simpl. auto.
    + inversion Hall as [|? ? Ha Hrest]; subst.
      inversion Hrest as [|? ? Hb _]; subst.
      rewrite steps_cons in Hal.
      inversion Hal as [|? ? Hab Hal']; subst. cbn [fst snd] in Hab.
      change (map Int (a :: b :: rest')) with (Int a :: Int b :: map Int rest').
      rewrite hidden_layers_cons.
      destruct (nn_Linear_ok allocates a b g Ha Hb Hab) as (p1 & -> & Hin & Hout & Hok).
      cbn [Py.bind].
      destruct (IH (snd p1) Hrest Hal') as (q & Eq & Hlen & Hchain).
      change (map Int (b :: rest')) with (Int b :: map Int rest') in Eq.
      rewrite Eq. cbn [Py.bind]. eexists. split; [reflexivity|].
      cbn [fst]. split; [simpl in *; lia|].
      intros d. cbn [chain hd]. split; [exact Hok|]. split; [exact Hin|].
      rewrite Hout. apply (Hchain d).
Qed.

(** What the construction of the trunk tells about its arguments: the
    first layer and the comprehension, as both networks build them. *)
Lemma trunk_inv (ss : Z) (first : object) (rest : list object) (g : Generator)
    (p0 : Linear * Generator) (ph : list Linear * Generator) :
  nn_Linear allocates (Int ss) first g = Ok p0 ->
  hidden_layers allocates (first :: rest) (snd p0) = Ok ph ->
  exists z zs',
    first :: rest = map Int (z :: zs') /\
    Forall size_ok (ss :: z :: zs') /\
    allocatable allocates ((ss, z) :: steps (z :: zs')).
Proof.
  intros E0 Eh.
  destruct (nn_Linear_inv _ _ _ _ _ E0) as (i & o & Ei & -> & _).
  injection Ei as <-.
  destruct (nn_Linear_bounds _ _ _ _ _ E0) as (Hss & Ho & Hal0).
  destruct rest as [|b rest'].
  - exists o, []. split; [reflexivity|]. split; forall_hyps.
  - destruct (hidden_layers_inv _ _ _ Eh) as (zs & Hzs & _ & Hsz & Hst); [simpl; lia|].
    destruct zs as [|z zs']; [discriminate|].
    pose proof Hzs as Hz. simpl in Hz. injection Hz as Hz _. subst z.
    exists o, zs'. split; [exact Hzs|].
    split; constructor; assumption.
Qed.

Lemma size_ok_nonneg (zs : list Z) :
  Forall size_ok zs -> Forall (fun z => 0 <= z)%Z zs.
Proof.
  intros H. eapply Forall_impl; [|exact H]. unfold size_ok. intros; lia.
Qed.

Lemma allocatable_app (xs ys : list (Z * Z)) :
  allocatable allocates (xs ++ ys) <->
  allocatable allocates xs /\ allocatable allocates ys.
Proof. unfold allocatable. apply Forall_app. Qed.

(** What a successful [QNetwork._init_fc_layers] tells about its
    arguments. *)
Lemma qnetwork_init_inv (ss acs : Z) (fc : object) (g : Generator)
    (p : QNetwork.t * Generator) :
  QNetwork._init_fc_layers allocates ss acs fc g = Ok p ->
  exists zs, fc = PyList (map Int zs) /\ zs <> [] /\
             Forall (fun z => 0 <= z)%Z zs /\ (0 <= ss)%Z /\ (0 <= acs)%Z /\
             Forall size_ok (ss :: acs :: zs) /\
             allocatable allocates (qnetwork_shapes ss acs zs).
Proof.
  unfold QNetwork._init_fc_layers.
  destruct fc as [| | | |units|]; try discriminate.
  destruct units as [|first rest]; [discriminate|].
  destruct (nn_Linear allocates (Int ss) first g) as [p0|e] eqn:E0;
    cbn [Py.bind]; [|discriminate].
  destruct (hidden_layers allocates (first :: rest) (snd p0)) as [ph|e] eqn:Eh;
    cbn [Py.bind]; [|discriminate].
  destruct (trunk_inv _ _ _ _ _ _ E0 Eh) as (z & zs' & Hzs & Hsz & Hal).
  rewrite Hzs.
  replace first with (Int z) by (simpl in Hzs; congruence).
  rewrite last_map_Int.
  destruct (nn_Linear allocates (Int (last (z :: zs') z)) (Int acs) (snd ph)) as [pl|e] eqn:El;
    cbn [Py.bind]; [|discriminate].
  destruct (nn_Linear_bounds _ _ _ _ _ El) as (_ & Hacs & Hall).
  intros _. exists (z :: zs').
  inversion Hsz as [|? ? Hss Hsz']; subst.
  split; [reflexivity|]. split; [discriminate|].
  split; [now apply size_ok_nonneg|].
  split; [unfold size_ok in Hss; lia|]. split; [unfold size_ok in Hacs; lia|].
  split; [repeat (apply Forall_cons; [assumption|]); assumption|].
  unfold qnetwork_shapes. cbn [hd].
  change ((ss, z) :: steps (z :: zs') ++ [(last (z :: zs') 0%Z, acs)])
    with (((ss, z) :: steps (z :: zs')) ++ [(last (z :: zs') 0%Z, acs)]).
  apply allocatable_app. split; [exact Hal|].
  rewrite (last_default (z :: zs') 0%Z z) by discriminate.
  forall_hyps.
Qed.

(** On a non-empty list of units, with sizes [nn.Linear] takes and
    layers that can be allocated, [QNetwork._init_fc_layers] succeeds;
    the layers fit from [state_size] to the last unit, and a last layer
    leads to [action_size]. *)
Lemma qnetwork_init_ok (ss acs : Z) (zs : list Z) (g : Generator) :
  zs <> [] -> Forall size_ok (ss :: acs :: zs) ->
  allocatable allocates (qnetwork_shapes ss acs zs) ->
  exists p hidden out,
    QNetwork._init_fc_layers allocates ss acs (PyList (map Int zs)) g = Ok p /\
    QNetwork.fc_layers (fst p) = hidden ++ [out] /\
    length hidden = length zs /\
    chain (Z.to_nat ss) hidden (out_features (last hidden out)) /\
    Linear_ok out /\
    in_features out = out_features (last hidden out) /\
    out_features out = Z.to_nat acs.
Proof.
  intros Hne Hsz Hal. destruct zs as [|z zs']; [congruence|].
  inversion Hsz as [|? ? Hss Hsz1]; subst.
  inversion Hsz1 as [|? ? Hacs Hall]; subst.
  inversion Hall as [|? ? Hz _]; subst.
  unfold qnetwork_shapes in Hal. cbn [hd] in Hal.
  rewrite (last_default (z :: zs') 0%Z z) in Hal by discriminate.
  remember (last (z :: zs') z) as lz eqn:Elz.
  inversion Hal as [|? ? Hal0 Hal1]; subst x l. cbn [fst snd] in Hal0.
  apply allocatable_app in Hal1. destruct Hal1 as [Hst Hlastal].
  inversion Hlastal as [|? ? Hlal _]; subst x l. cbn [fst snd] in Hlal.
  subst lz.
  unfold QNetwork._init_fc_layers.
  change (map Int (z :: zs')) with (Int z :: map Int zs').
  destruct (nn_Linear_ok allocates ss z g Hss Hz Hal0) as (p0 & -> & Hin0 & Hout0 & Hok0).
  cbn [Py.bind].
  destruct (hidden_layers_ok (z :: zs') (snd p0) Hall Hst) as (ph & Eh & Hlen & Hchain).
  change (map Int (z :: zs')) with (Int z :: map Int zs') in Eh.
  rewrite Eh. cbn [Py.bind].
  change (Int z :: map Int zs') with (map Int (z :: zs')).
  rewrite last_map_Int.
  assert (Hlast : size_ok (last (z :: zs') z)).
  { rewrite Forall_forall in Hall. apply Hall. apply last_in. discriminate. }
  destruct (nn_Linear_ok allocates (last (z :: zs') z) acs (snd ph) Hlast Hacs Hlal)
    as (pl & -> & Hinl & Houtl & Hokl).
  cbn [Py.bind]. eexists. exists (fst p0 :: fst ph), (fst pl).
  split; [reflexivity|]. cbn [fst QNetwork.fc_layers].
  assert (Hc : chain (Z.to_nat ss) (fst p0 :: fst ph) (Z.to_nat (last (z :: zs') z))).
  { cbn [chain]. split; [exact Hok0|]. split; [exact Hin0|].
    rewrite Hout0. apply (Hchain z). }
  assert (Ho : out_features (last (fst p0 :: fst ph) (fst pl)) = Z.to_nat (last (z :: zs') z)).
  { clear - Hc. revert Hc. generalize (Z.to_nat ss) as i.
    generalize (Z.to_nat (last (z :: zs') z)) as o.
    generalize (fst pl) as d. generalize (fst p0) as l0.
    induction (fst ph) as [|l ls IH]; intros l0 d o i (_ & _ & Hc).
    - simpl in *. exact Hc.
    - apply (IH l d o (out_features l0)). exact Hc. }
  rewrite Ho. split; [reflexivity|].
  split; [simpl; simpl in Hlen; lia|]. split; [exact Hc|]. auto.
Qed.

(** What a successful [DuelingQNetwork._init_fc_layers] tells about
    its arguments. *)
Lemma dueling_init_inv (ss acs : Z) (fc : object) (g : Generator)
    (p : DuelingQNetwork.t * Generator) :
  DuelingQNetwork._init_fc_layers allocates ss acs fc g = Ok p ->
  exists zs, fc = PyList (map Int zs) /\ zs <> [] /\
             Forall (fun z => 0 <= z)%Z zs /\ (0 <= ss)%Z /\ (0 <= acs)%Z /\
             Forall size_ok (ss :: acs :: zs) /\
             allocatable allocates (dueling_shapes ss acs zs).
Proof.
  unfold DuelingQNetwork._init_fc_layers.
  destruct fc as [| | | |units|]; try discriminate.
  destruct units as [|first rest]; [discriminate|].
  destruct (nn_Linear allocates (Int ss) first g) as [p0|e] eqn:E0;
    cbn [Py.bind]; [|discriminate].
  destruct (hidden_layers allocates (first :: rest) (snd p0)) as [ph|e] eqn:Eh;
    cbn [Py.bind]; [|discriminate].
  destruct (trunk_inv _ _ _ _ _ _ E0 Eh) as (z & zs' & Hzs & Hsz & Hal).
  rewrite Hzs.
  replace first with (Int z) by (simpl in Hzs; congruence).
  rewrite last_map_Int.
  destruct (nn_Linear allocates (Int (last (z :: zs') z)) (Int 32) (snd ph)) as [v1|e] eqn:Ev1;
    cbn [Py.bind]; [|discriminate].
  destruct (xavier_normal_ (fst v1) (snd v1)) as [vl1 g1].
  destruct (nn_Linear allocates (Int 32) (Int 1) g1) as [v2|e] eqn:Ev2;
    cbn [Py.bind]; [|discriminate].
  destruct (nn_Linear allocates (Int (last (z :: zs') z)) (Int 32) (snd v2)) as [a1|e] eqn:Ea1;
    cbn [Py.bind]; [|discriminate].
  destruct (xavier_normal_ (fst a1) (snd a1)) as [al1 g2].
  destruct (nn_Linear allocates (Int 32) (Int acs) g2) as [a2|e] eqn:Ea2;
    cbn [Py.bind]; [|discriminate].
  destruct (nn_Linear_bounds _ _ _ _ _ Ev1) as (_ & _ & Hal1).
  destruct (nn_Linear_bounds _ _ _ _ _ Ev2) as (_ & _ & Hal2).
  destruct (nn_Linear_bounds _ _ _ _ _ Ea2) as (_ & Hacs & Hal4).
  intros _. exists (z :: zs').
  inversion Hsz as [|? ? Hss Hsz']; subst.
  split; [reflexivity|]. split; [discriminate|].
  split; [now apply size_ok_nonneg|].
  split; [unfold size_ok in Hss; lia|]. split; [unfold size_ok in Hacs; lia|].
  split; [repeat (apply Forall_cons; [assumption|]); assumption|].
  unfold dueling_shapes. cbn [hd].
  match goal with
  | |- allocatable _ (?h :: ?t ++ ?u) => change (h :: t ++ u) with ((h :: t) ++ u)
  end.
  apply allocatable_app. split; [exact Hal|].
  rewrite (last_default (z :: zs') 0%Z z) by discriminate.
  forall_hyps.
Qed.

(** On a non-empty list of units, with sizes [nn.Linear] takes and
    layers that can be allocated, [DuelingQNetwork._init_fc_layers]
    succeeds and the network has the declared shape. *)
Lemma dueling_init_ok (ss acs : Z) (zs : list Z) (g : Generator) :
  zs <> [] -> Forall size_ok (ss :: acs :: zs) ->
  allocatable allocates (dueling_shapes ss acs zs) ->
  exists p,
    DuelingQNetwork._init_fc_layers allocates ss acs (PyList (map Int zs)) g = Ok p /\
    DuelingQNetwork.shaped (Z.to_nat ss) (Z.to_nat acs) (fst p).
Proof.
  intros Hne Hsz Hal. destruct zs as [|z zs']; [congruence|].
  inversion Hsz as [|? ? Hss Hsz1]; subst.
  inversion Hsz1 as [|? ? Hacs Hall]; subst.
  inversion Hall as [|? ? Hz _]; subst.
  unfold dueling_shapes in Hal. cbn [hd] in Hal.
  rewrite (last_default (z :: zs') 0%Z z) in Hal by discriminate.
  remember (last (z :: zs') z) as lz eqn:Elz.
  inversion Hal as [|? ? Hal0 Hal1]; subst x l. cbn [fst snd] in Hal0.
  apply allocatable_app in Hal1. destruct Hal1 as [Hst Hheads].
  inversion Hheads as [|? ? Hh1 Hheads2]; subst x l. cbn [fst snd] in Hh1.
  inversion Hheads2 as [|? ? Hh2 Hheads3]; subst x l. cbn [fst snd] in Hh2.
  inversion Hheads3 as [|? ? _ Hheads4]; subst x l.
  inversion Hheads4 as [|? ? Hh4 _]; subst x l. cbn [fst snd] in Hh4.
  subst lz.
  assert (H32 : size_ok 32) by (unfold size_ok; lia).
  assert (H1 : size_ok 1) by (unfold size_ok; lia).
  unfold DuelingQNetwork._init_fc_layers.
  change (map Int (z :: zs')) with (Int z :: map Int zs').
  destruct (nn_Linear_ok allocates ss z g Hss Hz Hal0) as (p0 & -> & Hin0 & Hout0 & Hok0).
  cbn [Py.bind].
  destruct (hidden_layers_ok (z :: zs') (snd p0) Hall Hst) as (ph & Eh & Hlen & Hchain).
  change (map Int (z :: zs')) with (Int z :: map Int zs') in Eh.
  rewrite Eh. cbn [Py.bind].
  change (Int z :: map Int zs') with (map Int (z :: zs')).
  rewrite last_map_Int.
  assert (Hlast : size_ok (last (z :: zs') z)).
  { rewrite Forall_forall in Hall. apply Hall. apply last_in. discriminate. }
  destruct (nn_Linear_ok allocates (last (z :: zs') z) 32 (snd ph) Hlast H32 Hh1)
    as (v1 & -> & Hinv1 & Houtv1 & Hokv1).
  cbn [Py.bind].
  destruct (xavier_normal_shape (fst v1) (snd v1) Hokv1) as (Hxi & Hxo & Hxok).
  destruct (xavier_normal_ (fst v1) (snd v1)) as [vl1 g1]. cbn [fst] in *.
  destruct (nn_Linear_ok allocates 32 1 g1 H32 H1 Hh2)
    as (v2 & -> & Hinv2 & Houtv2 & Hokv2).
  cbn [Py.bind].
  destruct (nn_Linear_ok allocates (last (z :: zs') z) 32 (snd v2) Hlast H32 Hh1)
    as (a1 & -> & Hina1 & Houta1 & Hoka1).
  cbn [Py.bind].
  destruct (xavier_normal_shape (fst a1) (snd a1) Hoka1) as (Hyi & Hyo & Hyok).
  destruct (xavier_normal_ (fst a1) (snd a1)) as [al1 g2]. cbn [fst] in *.
  destruct (nn_Linear_ok allocates 32 acs g2 H32 Hacs Hh4)
    as (a2 & -> & Hina2 & Houta2 & Hoka2).
  cbn [Py.bind]. eexists. split; [reflexivity|].
  exists (Z.to_nat (last (z :: zs') z)). cbn [fst].
  unfold DuelingQNetwork.fc_layers, DuelingQNetwork.value_layer1,
    DuelingQNetwork.value_layer2, DuelingQNetwork.action_layer1,
    DuelingQNetwork.action_layer2.
  split; [discriminate|]. split.
  { cbn [chain]. split; [exact Hok0|]. split; [exact Hin0|].
    rewrite Hout0. apply (Hchain z). }
  change (Z.to_nat 32) with 32%nat in *. change (Z.to_nat 1) with 1%nat in *.
  repeat match goal with
         | |- Linear_ok _ => assumption
         | |- _ /\ _ => split
         end; congruence.
Qed.

(** [torch.manual_seed] puts the generator in the state of the seed,
    for a seed it accepts. *)
Lemma manual_seed_inv (state_of : Z -> Generator) (sd : Z) (g : Generator) :
  manual_seed state_of sd = Ok g -> g = state_of sd /\ seed_in_range sd = true.
Proof.
  unfold manual_seed. destruct (seed_in_range sd); [|discriminate].
  intros E. injection E as <-. auto.
Qed.

(** A network that [QNetwork.__init__] returns was built by
    [_init_fc_layers] from the generator in the state of the seed. *)
Lemma qnetwork_init_seeded (state_of : Z -> Generator) (ss acs sd : Z) (fc : object)
    (net : QNetwork.t) :
  QNetwork.__init__ allocates state_of ss acs sd fc = Ok net ->
  (p <- QNetwork._init_fc_layers allocates ss acs fc (state_of sd) ;; Ok (fst p)) = Ok net.
Proof.
  unfold QNetwork.__init__.
  destruct (manual_seed state_of sd) as [g|e] eqn:Es; cbn [Py.bind]; [|discriminate].
  apply manual_seed_inv in Es. destruct Es as [-> _]. auto.
Qed.

(** The same for [DuelingQNetwork.__init__]. *)
Lemma dueling_init_seeded (state_of : Z -> Generator) (ss acs sd : Z) (fc : object)
    (net : DuelingQNetwork.t) :
  DuelingQNetwork.__init__ allocates state_of ss acs sd fc = Ok net ->
  (p <- DuelingQNetwork._init_fc_layers allocates ss acs fc (state_of sd) ;; Ok (fst p))
  = Ok net.
Proof.
  unfold DuelingQNetwork.__init__.
  destruct (manual_seed state_of sd) as [g|e] eqn:Es; cbn [Py.bind]; [|discriminate].
  apply manual_seed_inv in Es. destruct Es as [-> _]. auto.
Qed.

End ConstructionFacts.

(** ** The plain network *)

Section QNetworkFacts.

Import Torch.

Variable allocates : Z -> Z -> bool.

Lemma last_cons {A : Type} (l : A) (ls : list A) (d : A) : last (l :: ls) d = last ls l.
Proof.
  revert l d. induction ls as [|a ls IH]; intros l d; [reflexivity|].
  change (last (l :: a :: ls) d) with (last (a :: ls) d).
  rewrite (IH a d). symmetry. apply (IH a l).
Qed.

(** [forward] runs the layers before the last one, each followed by
    the activation, and then the last one alone. *)
Lemma qnetwork_forward_split (net : QNetwork.t) (hidden : list Linear) (out : Linear)
    (x : tensor Q) :
  QNetwork.fc_layers net = hidden ++ [out] ->
  QNetwork.forward net x = (h <- relu_layers hidden x ;; linear out h).
Proof.
  intros E. unfold QNetwork.forward. rewrite E, removelast_last.
  destruct (hidden ++ [out]) as [|l ls] eqn:E'.
  - destruct hidden; discriminate.
  - rewrite <- (last_cons l ls out), <- E', last_last. reflexivity.
Qed.

Lemma qnetwork_init_shaped (ss acs : Z) (fc : object) (g : Generator)
    (p : QNetwork.t * Generator) :
  QNetwork._init_fc_layers allocates ss acs fc g = Ok p ->
  QNetwork.shaped (Z.to_nat ss) (Z.to_nat acs) (fst p).
Proof.
  intros E.
  destruct (qnetwork_init_inv _ _ _ _ _ _ E) as (zs & -> & Hne & _ & _ & _ & Hsz & Hal).
  destruct (qnetwork_init_ok allocates ss acs zs g Hne Hsz Hal)
    as (p' & hidden & out & E' & Hfc & Hlen & Hc & Hok & Hin & Hout).
  rewrite E in E'. injection E' as <-.
  exists hidden, out. rewrite Hin.
  split; [exact Hfc|]. split; [|split; [exact Hc|split; [exact Hok|exact Hout]]].
  intros ->. destruct zs; [congruence|discriminate].
Qed.

Lemma dueling_init_shaped (ss acs : Z) (fc : object) (g : Generator)
    (p : DuelingQNetwork.t * Generator) :
  DuelingQNetwork._init_fc_layers allocates ss acs fc g = Ok p ->
  DuelingQNetwork.shaped (Z.to_nat ss) (Z.to_nat acs) (fst p).
Proof.
  intros E.
  destruct (dueling_init_inv _ _ _ _ _ _ E) as (zs & -> & Hne & _ & _ & _ & Hsz & Hal).
  destruct (dueling_init_ok allocates ss acs zs g Hne Hsz Hal) as (p' & E' & Hs).
  rewrite E in E'. injection E' as <-. exact Hs.
Qed.

(** The forward pass of a network of the declared shape. *)
Lemma qnetwork_forward_ok (i o : nat) (net : QNetwork.t) (hidden : list Linear)
    (out : Linear) (x : tensor Q) :
  QNetwork.fc_layers net = hidden ++ [out] ->
  hidden <> [] ->
  chain i hidden (in_features out) ->
  Linear_ok out ->
  out_features out = o ->
  last_dim x = i ->
  exists h y,
    relu_layers hidden x = Ok h /\
    Forall (fun a => 0 <= a) (entries h) /\
    linear out h = Ok y /\
    QNetwork.forward net x = Ok y /\
    last_dim y = o /\
    batch_dim y = batch_dim x /\
    well_shaped y.
Proof.
  intros Hfc Hne Hc Hok Hout Hx.
  destruct (relu_layers_shape hidden i (in_features out) x Hc Hx)
    as (h & Eh & Hh & Hb & Hrest).
  destruct (Hrest Hne) as [_ Hnn].
  destruct (linear_shape out h Hok Hh) as (y & Ey & Hy & Hby & Hwy).
  exists h, y. rewrite (qnetwork_forward_split net hidden out x Hfc), Eh.
  cbn [Py.bind]. repeat split; auto; congruence.
Qed.

End QNetworkFacts.

(** ** The networks: construction and the plain forward pass *)

Section NetworkClaims.

Import Torch.

Variable allocates : Z -> Z -> bool.

Variable manual_seed : Z -> Generator.


(** C7, as amended.  Construction of either network fails when
    [fc_units] is empty or is not an ordered sequence of integers, and
    nothing is corrected on the way: the check comes first, as an
    [AssertionError] on an empty list or on a value that is not a list,
    and a list with a unit that [nn.Linear] does not take is refused.
    For every non-empty list of non-negative integers below [2 ^ 63],
    construction succeeds, given a [state_size] and an [action_size] in
    that range, a seed that [torch.manual_seed] accepts, and layers
    that can be allocated. *)
Theorem init_fc_units_checked (ss acs sd : Z) (fc : object) :
  (fc = PyList [] \/ is_int_sequence fc = false ->
     is_ok (QNetwork.__init__ allocates manual_seed ss acs sd fc) = false /\
     is_ok (DuelingQNetwork.__init__ allocates manual_seed ss acs sd fc) = false) /\
  (seed_in_range sd = true ->
   fc = PyList [] \/ is_list fc = false ->
     QNetwork.__init__ allocates manual_seed ss acs sd fc = Raise AssertionError /\
     DuelingQNetwork.__init__ allocates manual_seed ss acs sd fc = Raise AssertionError) /\
  (forall zs : list Z,
     fc = PyList (map Int zs) ->
     Exists (fun z => ~ size_ok z) zs ->
     is_ok (QNetwork.__init__ allocates manual_seed ss acs sd fc) = false /\
     is_ok (DuelingQNetwork.__init__ allocates manual_seed ss acs sd fc) = false) /\
  (forall zs : list Z,
     fc = PyList (map Int zs) ->
     zs <> [] ->
     Forall size_ok (ss :: acs :: zs) ->
     seed_in_range sd = true ->
     (Layers.allocatable allocates (Layers.qnetwork_shapes ss acs zs) ->
        is_ok (QNetwork.__init__ allocates manual_seed ss acs sd fc) = true) /\
     (Layers.allocatable allocates (Layers.dueling_shapes ss acs zs) ->
        is_ok (DuelingQNetwork.__init__ allocates manual_seed ss acs sd fc) = true)).
Proof.
  assert (Hq : is_ok (QNetwork.__init__ allocates manual_seed ss acs sd fc) = true ->
     exists zs, fc = PyList (map Int zs) /\ zs <> [] /\ Forall size_ok zs).
  { destruct (QNetwork.__init__ allocates manual_seed ss acs sd fc) as [net|e] eqn:E;
      [|discriminate].
    intros _. apply qnetwork_init_seeded in E.
    destruct (QNetwork._init_fc_layers allocates ss acs fc (manual_seed sd)) as [p|e] eqn:Ei;
      [|discriminate].
    destruct (qnetwork_init_inv _ _ _ _ _ _ Ei) as (zs & -> & Hne & _ & _ & _ & Hsz & _).
    exists zs. apply Forall_inv_tail, Forall_inv_tail in Hsz. auto. }
  assert (Hd : is_ok (DuelingQNetwork.__init__ allocates manual_seed ss acs sd fc) = true ->
     exists zs, fc = PyList (map Int zs) /\ zs <> [] /\ Forall size_ok zs).
  { destruct (DuelingQNetwork.__init__ allocates manual_seed ss acs sd fc) as [net|e] eqn:E;
      [|discriminate].
    intros _. apply dueling_init_seeded in E.
    destruct (DuelingQNetwork._init_fc_layers allocates ss acs fc (manual_seed sd))
      as [p|e] eqn:Ei; [|discriminate].
    destruct (dueling_init_inv _ _ _ _ _ _ Ei) as (zs & -> & Hne & _ & _ & _ & Hsz & _).
    exists zs. apply Forall_inv_tail, Forall_inv_tail in Hsz. auto. }
  assert (Hseq : forall zs, is_int_sequence (PyList (map Int zs)) = true).
  { intros zs. simpl. apply forallb_forall. intros o Ho.
    apply in_map_iff in Ho. destruct Ho as (z & <- & _). reflexivity. }
  assert (Hinj : forall zs zs' : list Z, map Int zs = map Int zs' -> zs = zs').
  { induction zs as [|z zs IH]; intros [|z' zs'] H; try discriminate; [reflexivity|].
    simpl in H. injection H as -> H. f_equal. now apply IH. }
  split; [|split; [|split]].
  - intros Hbad. split.
    + destruct (is_ok (QNetwork.__init__ allocates manual_seed ss acs sd fc)) eqn:E;
        [|reflexivity].
      destruct (Hq eq_refl) as (zs & -> & Hne & _).
      destruct Hbad as [Hb|Hb]; [|now rewrite Hseq in Hb].
      injection Hb as Hb. destruct zs; [congruence|discriminate].
    + destruct (is_ok (DuelingQNetwork.__init__ allocates manual_seed ss acs sd fc)) eqn:E;
        [|reflexivity].
      destruct (Hd eq_refl) as (zs & -> & Hne & _).
      destruct Hbad as [Hb|Hb]; [|now rewrite Hseq in Hb].
      injection Hb as Hb. destruct zs; [congruence|discriminate].
  - intros Hs Hbad. unfold QNetwork.__init__, DuelingQNetwork.__init__, Torch.manual_seed.
    rewrite Hs. cbn [Py.bind].
    destruct Hbad as [->|Hb]; [split; reflexivity|].
    destruct fc; try discriminate; split; reflexivity.
  - intros zs -> Hex.
    assert (Hno : forall zs', PyList (map Int zs) = PyList (map Int zs') ->
                              Forall size_ok zs' -> False).
    { intros zs' Heq Hall. injection Heq as Heq. apply Hinj in Heq. subst zs'.
      apply Exists_exists in Hex. destruct Hex as (z & Hin & Hn).
      rewrite Forall_forall in Hall. apply Hn, Hall, Hin. }
    split.
    + destruct (is_ok (QNetwork.__init__ allocates manual_seed ss acs sd
                         (PyList (map Int zs)))) eqn:E; [|reflexivity].
      destruct (Hq eq_refl) as (zs' & Heq & _ & Hall). destruct (Hno zs' Heq Hall).
    + destruct (is_ok (DuelingQNetwork.__init__ allocates manual_seed ss acs sd
                         (PyList (map Int zs)))) eqn:E; [|reflexivity].
      destruct (Hd eq_refl) as (zs' & Heq & _ & Hall). destruct (Hno zs' Heq Hall).
  - intros zs -> Hne Hsz Hs.
    unfold QNetwork.__init__, DuelingQNetwork.__init__, Torch.manual_seed.
    rewrite Hs. cbn [Py.bind]. split; intros Hal.
    + destruct (qnetwork_init_ok allocates ss acs zs (manual_seed sd) Hne Hsz Hal)
        as (p & _ & _ & -> & _). reflexivity.
    + destruct (dueling_init_ok allocates ss acs zs (manual_seed sd) Hne Hsz Hal)
        as (p & -> & _). reflexivity.
Qed.

End NetworkClaims.


(** C7 as amended, on the default hidden widths [[64, 64]], for a
    state of size 37 and 4 actions. *)
Lemma init_fc_units_checked_witness :
  is_ok (QNetwork.__init__ Scenario.allocates Scenario.manual_seed 37 4 0
           (PyList [Int 64; Int 64])) = true /\
  is_ok (DuelingQNetwork.__init__ Scenario.allocates Scenario.manual_seed 37 4 0
           (PyList [Int 64; Int 64])) = true.
Proof.
  destruct (init_fc_units_checked Scenario.allocates Scenario.manual_seed 37 4 0
              (PyList [Int 64; Int 64])) as (_ & _ & _ & Hok).
  assert (Hsz : Forall Torch.size_ok [37; 4; 64; 64]%Z).
  { repeat (apply Forall_cons; [unfold Torch.size_ok; lia|]). apply Forall_nil. }
  destruct (Hok [64; 64]%Z eq_refl ltac:(discriminate) Hsz eq_refl) as [Hq Hd].
  split; [apply Hq | apply Hd]; repeat (apply Forall_cons; [reflexivity|]); apply Forall_nil.
Defined.

(** C7, the counterexample.  Each of [[-1]], [[2 ^ 63]] and [[2 ^ 31]]
    is a non-empty list of integers, and the construction of either
    network fails on it: the first is a negative size, the second does
    not fit the signed 64-bit size of a tensor, the third asks for a
    layer of [2 ^ 33] weights, which the allocator of the scenarios
    refuses.  And a list of valid units is refused with a negative
    [state_size] or [action_size], or with a seed beyond the range of
    [torch.manual_seed]. *)
Lemma negative_units_rejected :
  (is_list (PyList [Int (-1)]) = true /\
   is_int_sequence (PyList [Int (-1)]) = true /\
   QNetwork.__init__ Scenario.allocates Scenario.manual_seed 4 2 0 (PyList [Int (-1)])
     = Raise RuntimeError /\
   DuelingQNetwork.__init__ Scenario.allocates Scenario.manual_seed 4 2 0 (PyList [Int (-1)])
     = Raise RuntimeError) /\
  (is_int_sequence (PyList [Int (2 ^ 63)]) = true /\
   QNetwork.__init__ Scenario.allocates Scenario.manual_seed 4 2 0 (PyList [Int (2 ^ 63)])
     = Raise TypeError /\
   DuelingQNetwork.__init__ Scenario.allocates Scenario.manual_seed 4 2 0
     (PyList [Int (2 ^ 63)]) = Raise TypeError) /\
  (is_int_sequence (PyList [Int (2 ^ 31)]) = true /\
   QNetwork.__init__ Scenario.allocates Scenario.manual_seed 4 2 0 (PyList [Int (2 ^ 31)])
     = Raise RuntimeError /\
   DuelingQNetwork.__init__ Scenario.allocates Scenario.manual_seed 4 2 0
     (PyList [Int (2 ^ 31)]) = Raise RuntimeError) /\
  (QNetwork.__init__ Scenario.allocates Scenario.manual_seed (-1) 2 0 (PyList [Int 2])
     = Raise RuntimeError /\
   DuelingQNetwork.__init__ Scenario.allocates Scenario.manual_seed 4 (-1) 0 (PyList [Int 2])
     = Raise RuntimeError /\
   QNetwork.__init__ Scenario.allocates Scenario.manual_seed 4 2 (2 ^ 64) (PyList [Int 2])
     = Raise RuntimeError /\
   DuelingQNetwork.__init__ Scenario.allocates Scenario.manual_seed 4 2 (2 ^ 64)
     (PyList [Int 2]) = Raise RuntimeError).
Proof. repeat split; vm_compute; reflexivity. Qed.

(** ** Broadcasting *)

Section BroadcastFacts.

Import Torch.

Lemma bshape_same (n : nat) : bshape n n = Some n.
Proof. unfold bshape. now rewrite Nat.eqb_refl. Qed.

Lemma bshape_one_r (n : nat) : bshape n 1 = Some n.
Proof. unfold bshape. destruct (n =? 1)%nat; reflexivity. Qed.

Lemma bshape_one_l (n : nat) : bshape 1 n = Some n.
Proof.
  unfold bshape. destruct (Nat.eqb_spec 1 n) as [<-|_]; reflexivity.
Qed.

Lemma expand_same {A : Type} (n : nat) (d : A) (l : list A) :
  length l = n -> expand n d l = l.
Proof. intros <-. unfold expand. now rewrite Nat.eqb_refl. Qed.

Lemma expand_single {A : Type} (n : nat) (d x : A) : expand n d [x] = repeat x n.
Proof.
  unfold expand. cbn [length hd].
  destruct (Nat.eqb_spec 1 n) as [<-|_]; reflexivity.
Qed.

Lemma zip_with_repeat_r {A B C : Type} (f : A -> B -> C) (a : list A) (m : B) :
  zip_with f a (repeat m (length a)) = map (fun x => f x m) a.
Proof. induction a as [|x a IH]; simpl; [reflexivity|]. now rewrite IH. Qed.

Lemma zip_with_repeat_l {A B C : Type} (f : A -> B -> C) (v : A) (d : list B) :
  zip_with f (repeat v (length d)) d = map (fun y => f v y) d.
Proof. induction d as [|y d IH]; simpl; [reflexivity|]. now rewrite IH. Qed.

Lemma zip_with_map_r {A B C : Type} (f : A -> B -> C) (g : A -> B) (l : list A) :
  zip_with f l (map g l) = map (fun a => f a (g a)) l.
Proof. induction l as [|a l IH]; simpl; [reflexivity|]. now rewrite IH. Qed.

Lemma zip_with_length {A B C : Type} (f : A -> B -> C) (u : list A) (v : list B) :
  length u = length v -> length (zip_with f u v) = length u.
Proof.
  revert v. induction u as [|a u IH]; intros [|b v] H; simpl in *; try lia.
  now rewrite IH by lia.
Qed.

(** A row of one entry per action minus a single number. *)
Lemma row_minus_scalar (n : nat) (a : list Q) (m : Q) :
  length a = n ->
  zip_with Qminus (expand n 0 a) (expand n 0 [m]) = map (fun x => x - m) a.
Proof.
  intros <-. rewrite expand_same by reflexivity. rewrite expand_single.
  apply zip_with_repeat_r.
Qed.

(** A single number plus a row of one entry per action. *)
Lemma scalar_plus_row (n : nat) (v : Q) (d : list Q) :
  length d = n ->
  zip_with Qplus (expand n 0 [v]) (expand n 0 d) = map (fun y => v + y) d.
Proof.
  intros <-. rewrite (expand_same _ _ d) by reflexivity. rewrite expand_single.
  apply zip_with_repeat_l.
Qed.

(** [a - torch.mean(a, dim=1).unsqueeze(1)] for a batch [a]. *)
Lemma sub_mean (n : nat) (arows : list (list Q)) :
  Forall (fun a => length a = n) arows ->
  sub (T2 n arows) (unsqueeze1 (map (mean n) arows)) =
  Ok (T2 n (map (fun a => map (fun x => x - mean n a) a) arows)).
Proof.
  intros Hall. unfold sub, unsqueeze1, broadcast. cbn [as_rows].
  rewrite bshape_one_r, !length_map, bshape_same.
  rewrite !expand_same by (rewrite ?length_map; reflexivity).
  rewrite map_map, zip_with_map_r. do 2 f_equal.
  apply map_ext_in. intros a Ha. rewrite Forall_forall in Hall.
  apply row_minus_scalar. now apply Hall.
Qed.

(** [v + d] for a column [v] and a batch [d]. *)
Lemma add_column (n : nat) (vs : list Q) :
  forall rows : list (list Q),
    length vs = length rows ->
    Forall (fun d => length d = n) rows ->
    add (T2 1 (map (fun v => [v]) vs)) (T2 n rows) =
    Ok (T2 n (zip_with (fun v d => map (fun y => v + y) d) vs rows)).
Proof.
  intros rows Hlen Hall. unfold add, broadcast. cbn [as_rows].
  rewrite bshape_one_l, length_map, Hlen, bshape_same.
  rewrite !expand_same by (rewrite ?length_map; auto).
  do 2 f_equal. clear Hlen. revert rows Hall.
  induction vs as [|v vs IH]; intros [|d rows] Hall; simpl; try reflexivity.
  inversion Hall as [|? ? Hd Hrest]; subst.
  rewrite scalar_plus_row by reflexivity. f_equal. apply IH, Hrest.
Qed.

Lemma zip_with_dueling (n : nat) (vs : list Q) :
  forall arows : list (list Q),
    zip_with (fun v d => map (fun y => v + y) d) vs
             (map (fun a => map (fun x => x - mean n a) a) arows)
    = zip_with (dueling_q n) vs arows.
Proof.
  induction vs as [|v vs IH]; intros [|a arows]; simpl; try reflexivity.
  rewrite IH. unfold dueling_q at 1. now rewrite map_map.
Qed.

(** Rows of one entry are a column of numbers. *)
Lemma singleton_rows (rows : list (list Q)) :
  Forall (fun r => length r = 1%nat) rows ->
  rows = map (fun v => [v]) (map (hd 0) rows).
Proof.
  induction 1 as [|r rows Hr _ IH]; [reflexivity|].
  simpl. rewrite <- IH. f_equal.
  destruct r as [|x [|y r]]; try discriminate. reflexivity.
Qed.

End BroadcastFacts.

(** ** Sums and means *)

Section MeanFacts.

Import Torch.

Lemma inject_Z_succ (n : nat) :
  inject_Z (Z.of_nat (S n)) == inject_Z (Z.of_nat n) + 1.
Proof. rewrite Nat2Z.inj_succ. unfold Z.succ. rewrite inject_Z_plus. reflexivity. Qed.

(** The sum of [Q - V] over the actions. *)
Lemma sum_centred (v m : Q) (a : list Q) :
  sum (map (fun y => y - v) (map (fun x => v + (x - m)) a))
  == sum a - inject_Z (Z.of_nat (length a)) * m.
Proof.
  induction a as [|x a IH].
  - simpl. ring.
  - change (length (x :: a)) with (S (length a)). rewrite inject_Z_succ.
    simpl. rewrite IH. ring.
Qed.

(** Centring: the mean over the actions of [Q - V] is zero. *)
Lemma mean_centred (n : nat) (v : Q) (a : list Q) :
  length a = n -> (0 < n)%nat ->
  mean n (map (fun y => y - v) (dueling_q n v a)) == 0.
Proof.
  intros Hl Hn. unfold dueling_q, mean at 1.
  rewrite sum_centred, Hl. unfold mean.
  assert (Hnz : ~ inject_Z (Z.of_nat n) == 0).
  { intros H. apply (inject_Z_injective (Z.of_nat n) 0) in H. lia. }
  field. exact Hnz.
Qed.

End MeanFacts.

(** ** The dueling network *)

Section DuelingFacts.

Import Torch.

(** A head of two layers, the first followed by the activation. *)
Lemma head_shape (l1 l2 : Linear) (x : tensor Q) :
  Linear_ok l1 -> Linear_ok l2 ->
  last_dim x = in_features l1 ->
  out_features l1 = in_features l2 ->
  exists y, (h <- linear l1 x ;; linear l2 (relu h)) = Ok y /\
            last_dim y = out_features l2 /\
            batch_dim y = batch_dim x /\
            well_shaped y.
Proof.
  intros H1 H2 Hx H12.
  destruct (linear_shape l1 x H1 Hx) as (h & -> & Hh & Hb & _).
  cbn [Py.bind]. destruct (relu_shape h) as (Hd & Hbr & _ & _).
  destruct (linear_shape l2 (relu h) H2) as (y & Ey & Hy & Hby & Hw); [congruence|].
  exists y. repeat split; auto; congruence.
Qed.

(** A tensor of rank two, from its shape. *)
Lemma rank2_inv (y : tensor Q) (n b : nat) :
  last_dim y = n -> batch_dim y = Some b -> well_shaped y ->
  exists rows, y = T2 n rows /\ length rows = b /\ Forall (fun r => length r = n) rows.
Proof.
  destruct y as [v|c rows]; simpl; [discriminate|].
  intros -> E Hw. injection E as <-. eauto.
Qed.

(** The forward pass of a dueling network of the declared shape on a
    batch: the trunk output, the two heads and their combination. *)
Lemma dueling_forward_batch (i o : nat) (net : DuelingQNetwork.t) (rows : list (list Q)) :
  DuelingQNetwork.shaped i o net ->
  exists x vs arows,
    relu_layers (DuelingQNetwork.fc_layers net) (T2 i rows) = Ok x /\
    DuelingQNetwork.value_head net x = Ok (T2 1 (map (fun v => [v]) vs)) /\
    DuelingQNetwork.advantage_head net x = Ok (T2 o arows) /\
    length vs = length rows /\
    length arows = length rows /\
    Forall (fun a => length a = o) arows /\
    DuelingQNetwork.forward net (T2 i rows) = Ok (T2 o (zip_with (dueling_q o) vs arows)).
Proof.
  intros (width & Hne & Hc & (Hv1 & Hv1i & Hv1o) & (Hv2 & Hv2i & Hv2o)
          & (Ha1 & Ha1i & Ha1o) & (Ha2 & Ha2i & Ha2o)).
  destruct (relu_layers_shape _ i width (T2 i rows) Hc eq_refl)
    as (x & Ex & Hx & Hbx & _).
  simpl in Hbx.
  destruct (head_shape (DuelingQNetwork.value_layer1 net)
              (DuelingQNetwork.value_layer2 net) x Hv1 Hv2)
    as (v & Ev & Hvl & Hvb & Hvw); [congruence|congruence|].
  destruct (head_shape (DuelingQNetwork.action_layer1 net)
              (DuelingQNetwork.action_layer2 net) x Ha1 Ha2)
    as (a & Ea & Hal & Hab & Haw); [congruence|congruence|].
  destruct (rank2_inv v 1 (length rows)) as (vrows & -> & Hvlen & Hvall);
    [congruence|congruence|assumption|].
  destruct (rank2_inv a o (length rows)) as (arows & -> & Halen & Haall);
    [congruence|congruence|assumption|].
  rewrite (singleton_rows vrows Hvall) in Ev.
  exists x, (map (hd 0) vrows), arows.
  split; [exact Ex|]. split; [exact Ev|]. split; [exact Ea|].
  split; [now rewrite length_map|]. split; [exact Halen|]. split; [exact Haall|].
  unfold DuelingQNetwork.forward. rewrite Ex. cbn [Py.bind].
  unfold DuelingQNetwork.value_head in Ev. unfold DuelingQNetwork.value_head.
  rewrite Ev. cbn [Py.bind].
  unfold DuelingQNetwork.advantage_head in Ea. unfold DuelingQNetwork.advantage_head.
  rewrite Ea. cbn [Py.bind mean_dim1].
  rewrite (sub_mean o arows Haall). cbn [Py.bind].
  rewrite add_column.
  - now rewrite zip_with_dueling.
  - rewrite !length_map. congruence.
  - apply Forall_forall. intros d Hd. apply in_map_iff in Hd.
    destruct Hd as (a0 & <- & Ha0). rewrite length_map.
    rewrite Forall_forall in Haall. now apply Haall.
Qed.

(** On a tensor of rank one the forward pass of a dueling network
    fails, whatever its layers. *)
Lemma dueling_forward_rank1 (net : DuelingQNetwork.t) (v : list Q) :
  is_ok (DuelingQNetwork.forward net (T1 v)) = false.
Proof.
  unfold DuelingQNetwork.forward.
  destruct (relu_layers (DuelingQNetwork.fc_layers net) (T1 v)) as [x|e] eqn:Ex;
    [|reflexivity].
  destruct (relu_layers_rank1 _ _ _ Ex) as (u & ->). cbn [Py.bind].
  destruct (DuelingQNetwork.value_head net (T1 u)) as [val|e]; [|reflexivity].
  cbn [Py.bind]. unfold DuelingQNetwork.advantage_head.
  destruct (linear (DuelingQNetwork.action_layer1 net) (T1 u)) as [a1|e] eqn:E1;
    [|reflexivity].
  destruct (linear_rank1 _ _ _ E1) as (u1 & ->). cbn [Py.bind relu].
  destruct (linear (DuelingQNetwork.action_layer2 net) (T1 (map relu1 u1))) as [a2|e] eqn:E2;
    [|reflexivity].
  destruct (linear_rank1 _ _ _ E2) as (u2 & ->). reflexivity.
Qed.

(** With layers of the declared shape and a state of the declared size
    the failure is the [IndexError] of [torch.mean(a, dim=1)]. *)
Lemma dueling_forward_rank1_error (i o : nat) (net : DuelingQNetwork.t) (v : list Q) :
  DuelingQNetwork.shaped i o net ->
  length v = i ->
  DuelingQNetwork.forward net (T1 v) = Raise IndexError.
Proof.
  intros (width & Hne & Hc & (Hv1 & Hv1i & Hv1o) & (Hv2 & Hv2i & Hv2o)
          & (Ha1 & Ha1i & Ha1o) & (Ha2 & Ha2i & Ha2o)) Hv.
  destruct (relu_layers_shape _ i width (T1 v) Hc Hv) as (x & Ex & Hx & Hbx & _).
  destruct (head_shape (DuelingQNetwork.value_layer1 net)
              (DuelingQNetwork.value_layer2 net) x Hv1 Hv2)
    as (val & Ev & _); [congruence|congruence|].
  destruct (head_shape (DuelingQNetwork.action_layer1 net)
              (DuelingQNetwork.action_layer2 net) x Ha1 Ha2)
    as (a & Ea & _ & Hab & _); [congruence|congruence|].
  unfold DuelingQNetwork.forward. rewrite Ex. cbn [Py.bind].
  unfold DuelingQNetwork.value_head. rewrite Ev. cbn [Py.bind].
  unfold DuelingQNetwork.advantage_head. rewrite Ea. cbn [Py.bind].
  destruct a as [u|c rows]; [reflexivity|].
  simpl in Hab, Hbx. congruence.
Qed.

End DuelingFacts.

(** ** The dueling network: claims *)

Section DuelingClaims.

Import Torch.

Variable allocates : Z -> Z -> bool.

Variable manual_seed : Z -> Generator.

(** C2.  For a dueling network constructed from its arguments and a
    batch of states of the declared [state_size], [forward] returns,
    for each state, [Q = V + (A - mean(A))], where [V] is the number the
    value head computes for that state, [A] the row the advantage head
    computes and the mean is taken over the actions of that row.
    Consequently, when there is at least one action, the mean over the
    actions of [Q - V] is zero for every state (numbers are exact
    rationals here, so "zero within tolerance" reads "equal to zero"). *)
Theorem dueling_forward_centred (ss acs sd : Z) (fc : object)
    (net : DuelingQNetwork.t) (rows : list (list Q)) :
  DuelingQNetwork.__init__ allocates manual_seed ss acs sd fc = Ok net ->
  let n := Z.to_nat acs in
  exists x vs arows,
    relu_layers (DuelingQNetwork.fc_layers net) (T2 (Z.to_nat ss) rows) = Ok x /\
    DuelingQNetwork.value_head net x = Ok (T2 1 (map (fun v => [v]) vs)) /\
    DuelingQNetwork.advantage_head net x = Ok (T2 n arows) /\
    length vs = length rows /\
    length arows = length rows /\
    Forall (fun a => length a = n) arows /\
    DuelingQNetwork.forward net (T2 (Z.to_nat ss) rows)
      = Ok (T2 n (zip_with (dueling_q n) vs arows)) /\
    ((0 < acs)%Z ->
     Forall2 (fun v q => mean n (map (fun y => y - v) q) == 0)
             vs (zip_with (dueling_q n) vs arows)).
Proof.
  intros E n. apply dueling_init_seeded in E.
  destruct (DuelingQNetwork._init_fc_layers allocates ss acs fc (manual_seed sd)) as [p|e] eqn:Ei;
    [|discriminate].
  cbn [Py.bind] in E. injection E as <-.
  pose proof (dueling_init_shaped _ _ _ _ _ _ Ei) as Hs.
  destruct (dueling_forward_batch _ _ (fst p) rows Hs)
    as (x & vs & arows & Ex & Ev & Ea & Hvl & Hal & Hall & Ef).
  exists x, vs, arows. repeat (split; [assumption|]).
  intros Hpos.
  assert (Hn : (0 < n)%nat) by (unfold n; lia).
  assert (Hlen : length vs = length arows) by congruence.
  clear Ex Ev Ea Hvl Hal Ef. revert arows Hlen Hall.
  induction vs as [|v vs IH]; intros [|a arows] Hlen Hall; try discriminate.
  - constructor.
  - pose proof (Forall_inv Hall) as Ha. pose proof (Forall_inv_tail Hall) as Hrest.
    simpl. constructor.
    + apply mean_centred; assumption.
    + apply IH; [simpl in Hlen; lia | exact Hrest].
Qed.

(** C10.  The forward pass of a dueling network fails on every tensor
    of rank one; on a single state of the declared size the failure is
    the [IndexError] of the mean along dimension 1, while the plain
    network constructed from the same arguments returns a vector of
    [action_size] values for that state.  On a batch of states of the
    declared size the dueling network succeeds. *)
Theorem dueling_forward_needs_batch (ss acs sd : Z) (fc : object)
    (dnet : DuelingQNetwork.t) (qnet : QNetwork.t) :
  DuelingQNetwork.__init__ allocates manual_seed ss acs sd fc = Ok dnet ->
  QNetwork.__init__ allocates manual_seed ss acs sd fc = Ok qnet ->
  (forall v, is_ok (DuelingQNetwork.forward dnet (T1 v)) = false) /\
  (forall v, length v = Z.to_nat ss ->
     DuelingQNetwork.forward dnet (T1 v) = Raise IndexError /\
     exists q, QNetwork.forward qnet (T1 v) = Ok (T1 q) /\
               length q = Z.to_nat acs) /\
  (forall rows,
     exists qs, DuelingQNetwork.forward dnet (T2 (Z.to_nat ss) rows)
                  = Ok (T2 (Z.to_nat acs) qs) /\
                length qs = length rows).
Proof.
  intros Ed Eq. apply dueling_init_seeded in Ed. apply qnetwork_init_seeded in Eq.
  destruct (DuelingQNetwork._init_fc_layers allocates ss acs fc (manual_seed sd)) as [pd|e] eqn:Eid;
    [|discriminate].
  destruct (QNetwork._init_fc_layers allocates ss acs fc (manual_seed sd)) as [pq|e] eqn:Eiq;
    [|discriminate].
  cbn [Py.bind] in Ed, Eq. injection Ed as <-. injection Eq as <-.
  pose proof (dueling_init_shaped _ _ _ _ _ _ Eid) as Hd.
  destruct (qnetwork_init_shaped _ _ _ _ _ _ Eiq) as (hidden & out & Hfc & Hne & Hc & Hok & Hout).
  split; [|split].
  - intros v. apply dueling_forward_rank1.
  - intros v Hv. split; [now apply (dueling_forward_rank1_error _ _ _ v Hd)|].
    destruct (qnetwork_forward_ok _ _ (fst pq) hidden out (T1 v) Hfc Hne Hc Hok Hout Hv)
      as (h & y & _ & _ & _ & Ey & Hl & Hb & _).
    destruct y as [q|c qs]; [|discriminate]. exists q. auto.
  - intros rows.
    destruct (dueling_forward_batch _ _ (fst pd) rows Hd)
      as (x & vs & arows & _ & _ & _ & Hvl & Hal & _ & Ef).
    eexists. split; [exact Ef|]. rewrite zip_with_length; congruence.
Qed.

End DuelingClaims.

(** C2 on a dueling network with one trunk layer of width 2, for
    states of size 2 and 2 actions, and a batch of two states. *)
Lemma dueling_forward_centred_witness :
  exists net,
    DuelingQNetwork.__init__ Scenario.allocates Scenario.manual_seed 2 2 0 (PyList [Int 2]) = Ok net /\
    exists vs arows,
      DuelingQNetwork.forward net (Torch.T2 2 [[1; 2]; [0; 1]])
        = Ok (Torch.T2 2 (Torch.zip_with (Torch.dueling_q 2) vs arows)) /\
      Forall2 (fun v q => Torch.mean 2 (map (fun y => y - v) q) == 0)
              vs (Torch.zip_with (Torch.dueling_q 2) vs arows).
Proof.
  destruct (DuelingQNetwork.__init__ Scenario.allocates Scenario.manual_seed 2 2 0 (PyList [Int 2]))
    as [net|e] eqn:E; [|vm_compute in E; discriminate E].
  exists net. split; [reflexivity|].
  destruct (dueling_forward_centred Scenario.allocates Scenario.manual_seed 2 2 0 (PyList [Int 2]) net
              [[1; 2]; [0; 1]] E) as (x & vs & arows & _ & _ & _ & _ & _ & _ & Ef & Hc).
  exists vs, arows. split; [exact Ef | exact (Hc eq_refl)].
Defined.

(** C10 on the two networks constructed from the same arguments. *)
Lemma dueling_forward_needs_batch_witness :
  exists dnet qnet,
    DuelingQNetwork.__init__ Scenario.allocates Scenario.manual_seed 2 2 0 (PyList [Int 2]) = Ok dnet /\
    QNetwork.__init__ Scenario.allocates Scenario.manual_seed 2 2 0 (PyList [Int 2]) = Ok qnet /\
    DuelingQNetwork.forward dnet (Torch.T1 [1; 2]) = Raise IndexError /\
    exists q, QNetwork.forward qnet (Torch.T1 [1; 2]) = Ok (Torch.T1 q) /\
              length q = 2%nat.
Proof.
  destruct (DuelingQNetwork.__init__ Scenario.allocates Scenario.manual_seed 2 2 0 (PyList [Int 2]))
    as [dnet|e] eqn:Ed; [|vm_compute in Ed; discriminate Ed].
  destruct (QNetwork.__init__ Scenario.allocates Scenario.manual_seed 2 2 0 (PyList [Int 2]))
    as [qnet|e] eqn:Eq; [|vm_compute in Eq; discriminate Eq].
  exists dnet, qnet. split; [reflexivity|]. split; [reflexivity|].
  destruct (dueling_forward_needs_batch Scenario.allocates Scenario.manual_seed 2 2 0 (PyList [Int 2])
              dnet qnet Ed Eq) as (_ & Hv & _).
  exact (Hv [1; 2] eq_refl).
Defined.

(* ================================================================= *)
(** * Further properties of the replay buffer *)

Section BufferExtras.

Import ReplayBuffer.

Variable seeded : Z -> Random.state.

Variable device_error : string -> option exn.

Lemma sample_value (b : t) (w : World) :
  value (sample device_error b w) =
  (drawn <- fst (Random.sample (Deque.items (memory b)) (batch_size b) w) ;;
   columns device_error (device b) drawn).
Proof. unfold sample. destruct (Random.sample _ _ w). reflexivity. Qed.

(** Within its precondition [random.sample] returns [k] items that,
    with the items it leaves, make up the population. *)
Lemma random_sample_part {A : Type} (l : list A) (k : Z) (g : Random.state) :
  (0 <= k <= Z.of_nat (length l))%Z ->
  exists res rest,
    fst (Random.sample l k g) = Ok res /\
    length res = Z.to_nat k /\
    Permutation l (res ++ rest).
Proof.
  intros Hk. unfold Random.sample.
  replace ((0 <=? k)%Z && (k <=? Z.of_nat (length l))%Z)%bool with true
    by (symmetry; apply andb_true_iff; split; apply Z.leb_le; lia).
  destruct (draw_ok (Z.to_nat k) (length l) l g) as (res & rest & E & Hl & Hp);
    [lia|lia|].
  rewrite firstn_all in Hp. eauto.
Qed.

(** When [random.sample] returns, its argument was within the
    precondition. *)
Lemma random_sample_inv {A : Type} (l : list A) (k : Z) (g : Random.state)
    (res : list A) :
  fst (Random.sample l k g) = Ok res ->
  (0 <= k <= Z.of_nat (length l))%Z /\ length res = Z.to_nat k.
Proof.
  intros E.
  destruct (Z.lt_ge_cases k 0) as [Hneg|Hnn].
  { rewrite sample_rejects in E by auto. discriminate. }
  destruct (Z.lt_ge_cases (Z.of_nat (length l)) k) as [Hbig|Hle].
  { rewrite sample_rejects in E by auto. discriminate. }
  split; [lia|].
  destruct (random_sample_part l k g) as (res' & _ & E' & Hl & _); [lia|].
  congruence.
Qed.

(** X1.  For a [buffer_size] within the range of a C [ssize_t]:
    [ReplayBuffer.__init__] raises [ValueError] when it is negative,
    before the generator is seeded; otherwise it seeds the generator
    and returns an empty buffer that keeps its arguments, is not ready
    for any non-negative [batch_size], and on which [sample] raises
    [ValueError] whatever [batch_size] is. *)
Theorem init_edge_cases (a n k s : Z) (dev : string) (w : World) :
  ((- 2 ^ 63 <= n < 0)%Z -> __init__ seeded a n k s dev w = (Raise ValueError, w)) /\
  ((0 <= n < 2 ^ 63)%Z ->
     exists b,
       __init__ seeded a n k s dev w = (Ok b, seeded s) /\
       len b = 0%nat /\
       Deque.maxlen (memory b) = Z.to_nat n /\
       batch_size b = k /\ action_size b = a /\ device b = dev /\
       ((0 <= k)%Z -> forall w', value (is_ready_to_sample b w') = Ok false) /\
       (forall w', sample device_error b w' =
          {| value := Raise ValueError; self_after := b; world_after := w' |})).
Proof.
  unfold __init__, Deque.new. split; intros Hn.
  - destruct (Z.ltb_spec n 0); [reflexivity|lia].
  - destruct (Z.ltb_spec n 0); [lia|]. simpl. eexists. split; [reflexivity|].
    repeat split.
    + intros Hk w'. unfold is_ready_to_sample. simpl. f_equal.
      rewrite Z.gtb_ltb. apply Z.ltb_ge. exact Hk.
    + intros w'. apply sample_rejected. unfold len, Deque.len. simpl. lia.
Qed.

(** X2.  After any additions to a constructed buffer,
    [is_ready_to_sample] holds exactly when [batch_size] is below the
    smaller of the capacity and the number of additions.  A buffer whose
    capacity does not exceed [batch_size] is therefore never ready. *)
Theorem ready_threshold (a n k s : Z) (dev : string) (w w' w2 : World) (b : t)
    (es : list Experience) :
  __init__ seeded a n k s dev w = (Ok b, w') ->
  let b' := fst (add_all es b w') in
  (value (is_ready_to_sample b' w2) = Ok true <->
     (k < Z.of_nat (Nat.min (Z.to_nat n) (length es)))%Z) /\
  ((n <= k)%Z -> value (is_ready_to_sample b' w2) = Ok false).
Proof.
  intros Hinit b'.
  destruct (init_add_all seeded a n k s dev w w' b es Hinit) as (_ & Hl & _ & Hk).
  fold b' in Hl, Hk. apply init_inv in Hinit. destruct Hinit as (Hn & _ & _).
  unfold is_ready_to_sample. simpl. rewrite Hk, Hl, Z.gtb_ltb. split.
  - split.
    + intros E. injection E as E. now apply Z.ltb_lt.
    + intros H. f_equal. now apply Z.ltb_lt.
  - intros Hle. f_equal. apply Z.ltb_ge. lia.
Qed.

(** X3.  A buffer constructed with [buffer_size = 0] discards every
    addition: it stays empty, and [sample] raises [ValueError] after any
    additions, whatever [batch_size] is. *)
Theorem zero_capacity_discards (a k s : Z) (dev : string) (w w' w2 : World) (b : t)
    (es : list Experience) :
  __init__ seeded a 0 k s dev w = (Ok b, w') ->
  let b' := fst (add_all es b w') in
  Deque.items (memory b') = [] /\
  len b' = 0%nat /\
  sample device_error b' w2
  = {| value := Raise ValueError; self_after := b'; world_after := w2 |}.
Proof.
  intros Hinit b'.
  destruct (init_add_all seeded a 0 k s dev w w' b es Hinit) as (Hi & Hl & _ & _).
  fold b' in Hi, Hl. simpl in Hl.
  assert (Hnil : Deque.items (memory b') = []).
  { unfold len, Deque.len in Hl. now apply length_zero_iff_nil. }
  repeat split; auto.
  apply sample_rejected. rewrite Hl. simpl. lia.
Qed.

(** X4.  [add] always succeeds and returns [None]; it touches neither
    the generator nor any attribute but [memory]; the length grows by
    one up to the capacity and then stays; and with a positive capacity
    the newest stored experience is the one just added. *)
Theorem add_effect (b : t) (e : Experience) (w : World) :
  (len b <= Deque.maxlen (memory b))%nat ->
  let o := add e b w in
  value o = Ok PyNone /\
  world_after o = w /\
  batch_size (self_after o) = batch_size b /\
  action_size (self_after o) = action_size b /\
  device (self_after o) = device b /\
  Deque.maxlen (memory (self_after o)) = Deque.maxlen (memory b) /\
  len (self_after o) = Nat.min (Deque.maxlen (memory b)) (len b + 1) /\
  ((0 < Deque.maxlen (memory b))%nat ->
     last (Deque.items (memory (self_after o))) e = e /\
     Deque.items (memory (self_after o)) <> []).
Proof.
  intros Hb o. unfold o. simpl. repeat split.
  - unfold len, Deque.len in *. simpl. rewrite length_app. simpl.
    destruct (Nat.ltb_spec (Deque.maxlen (memory b))
                (length (Deque.items (memory b)) + 1)) as [Hlt|Hge].
    + destruct (Deque.items (memory b)) as [|x l]; simpl in *; [lia|].
      rewrite length_app. simpl. lia.
    + rewrite length_app. simpl. lia.
  - rewrite length_app. simpl.
    destruct (Nat.ltb_spec (Deque.maxlen (memory b))
                (length (Deque.items (memory b)) + 1)) as [Hlt|Hge].
    + destruct (Deque.items (memory b)) as [|x l] eqn:E.
      * unfold len, Deque.len in Hb. rewrite E in Hb. simpl in *. lia.
      * simpl. apply last_last.
    + apply last_last.
  - rewrite length_app. simpl.
    destruct (Nat.ltb_spec (Deque.maxlen (memory b))
                (length (Deque.items (memory b)) + 1)) as [Hlt|Hge].
    + destruct (Deque.items (memory b)) as [|x l] eqn:E.
      * unfold len, Deque.len in Hb. rewrite E in Hb. simpl in *. lia.
      * simpl. destruct l; discriminate.
    + destruct (Deque.items (memory b)); discriminate.
Qed.

End BufferExtras.

Section SampleExtras.

Import ReplayBuffer Torch.

Variable seeded : Z -> Random.state.

Variable device_error : string -> option exn.

(** What a successful [np.vstack] tells about its argument. *)
Lemma vstack_inv {A : Type} (arrays : list (list A)) (t : tensor A) :
  Np.vstack arrays = Ok t ->
  arrays <> [] /\
  exists c, t = T2 c arrays /\ Forall (fun r => length r = c) arrays.
Proof.
  unfold Np.vstack. destruct arrays as [|a rest]; [discriminate|].
  destruct (forallb _ (a :: rest)) eqn:E; [|discriminate].
  intros H. injection H as <-. split; [discriminate|].
  exists (length a). split; [reflexivity|].
  apply Forall_forall. intros r Hr.
  rewrite forallb_forall in E. apply Nat.eqb_eq. now apply E.
Qed.

(** X5.  Take a buffer with [1 <= batch_size <= len] whose stored
    states all have one length, whose stored next states all have one
    length, whose stored actions all lie in the signed 64-bit range,
    and whose device accepts tensors.  Then [sample] returns the batch
    of [batch_size] stored experiences which, together with the ones it
    leaves, make up the buffer: no stored experience is returned more
    often than it is stored.  When [batch_size] equals the length, the
    batch is a rearrangement of the whole buffer. *)
Theorem sample_without_replacement (S S' : nat) (b : t) (w : World) :
  well_formed S S' b ->
  device_error (device b) = None ->
  (0 < batch_size b <= Z.of_nat (len b))%Z ->
  exists drawn rest,
    value (sample device_error b w) = Ok (batch_with S S' drawn) /\
    length drawn = Z.to_nat (batch_size b) /\
    Permutation (Deque.items (memory b)) (drawn ++ rest) /\
    (batch_size b = Z.of_nat (len b) ->
       Permutation (Deque.items (memory b)) drawn).
Proof.
  intros Hwf Hdev Hk.
  destruct (random_sample_part (Deque.items (memory b)) (batch_size b) w)
    as (drawn & rest & E & Hl & Hp).
  { unfold len, Deque.len in Hk. lia. }
  exists drawn, rest. rewrite sample_value, E. cbn [Py.bind].
  assert (Hin : forall e, In e drawn -> In e (Deque.items (memory b))).
  { intros e He. apply (Permutation_in e (Permutation_sym Hp)).
    apply in_or_app. now left. }
  split; [|split; [exact Hl|split; [exact Hp|]]].
  - apply columns_ok; [| |exact Hdev].
    + intros ->. simpl in Hl. lia.
    + apply Forall_forall. intros e He. unfold well_formed in Hwf.
      rewrite Forall_forall in Hwf. apply Hwf, Hin, He.
  - intros Hall.
    assert (Hrest : rest = []).
    { apply length_zero_iff_nil. apply Permutation_length in Hp.
      rewrite length_app in Hp. unfold len, Deque.len in Hall. lia. }
    subst rest. now rewrite app_nil_r in Hp.
Qed.

(** X6.  Eviction and sampling together: after any additions to a
    constructed buffer, every experience of a batch that [sample]
    returns is one of the last [buffer_size] experiences added; an
    evicted experience is never returned. *)
Theorem sample_after_eviction (a n k s : Z) (dev : string) (w w' w2 : World)
    (b : t) (es : list Experience) (r : batch) :
  __init__ seeded a n k s dev w = (Ok b, w') ->
  let b' := fst (add_all es b w') in
  value (sample device_error b' w2) = Ok r ->
  exists drawn,
    fst (Random.sample (Deque.items (memory b')) k w2) = Ok drawn /\
    columns device_error (device b') drawn = Ok r /\
    length drawn = Z.to_nat k /\
    Forall (fun e => In e (skipn (length es - Z.to_nat n) es)) drawn.
Proof.
  intros Hinit b' Hv.
  destruct (init_add_all seeded a n k s dev w w' b es Hinit) as (Hi & _ & _ & Hk).
  fold b' in Hi, Hk. rewrite sample_value, Hk in Hv.
  destruct (fst (Random.sample (Deque.items (memory b')) k w2)) as [drawn|e] eqn:E;
    [|discriminate].
  cbn [Py.bind] in Hv. exists drawn.
  destruct (random_sample_inv _ _ _ _ E) as (Hr & Hl).
  destruct (random_sample_part (Deque.items (memory b')) k w2 Hr)
    as (drawn' & rest & E' & _ & Hp).
  assert (drawn' = drawn) by congruence. subst drawn'.
  repeat split; auto.
  apply Forall_forall. intros x Hx. rewrite <- Hi.
  apply (Permutation_in x (Permutation_sym Hp)). apply in_or_app. now left.
Qed.

(** X7.  Whenever [sample] returns, [batch_size] was between one and
    the length of the buffer, and the five columns are rectangular
    tensors with one row per drawn experience: [states] and
    [next_states] as wide as the stored vectors, [actions], [rewards]
    and [dones] one entry wide, and every entry of [dones] is 0 or 1.
    It never returns an empty or a ragged batch. *)
Theorem sample_returns_rectangular (b : t) (w : World) (r : batch) :
  value (sample device_error b w) = Ok r ->
  (1 <= batch_size b <= Z.of_nat (len b))%Z /\
  exists drawn S S',
    fst (Random.sample (Deque.items (memory b)) (batch_size b) w) = Ok drawn /\
    length drawn = Z.to_nat (batch_size b) /\
    Forall (fun e => length (state e) = S /\ length (next_state e) = S') drawn /\
    states r = T2 S (map state drawn) /\
    actions r = T2 1 (map (fun e => [action e]) drawn) /\
    rewards r = T2 1 (map (fun e => [reward e]) drawn) /\
    next_states r = T2 S' (map next_state drawn) /\
    dones r = T2 1 (map (fun e => [done_to_float (done e)]) drawn) /\
    Forall (fun q => q = 0 \/ q = 1) (entries (dones r)).
Proof.
  rewrite sample_value. intros Hv.
  destruct (fst (Random.sample (Deque.items (memory b)) (batch_size b) w))
    as [drawn|e] eqn:E; [|discriminate].
  cbn [Py.bind] in Hv. destruct (random_sample_inv _ _ _ _ E) as (Hr & Hl).
  unfold columns in Hv.
  destruct (Np.vstack (map state drawn)) as [ts|e] eqn:Es; [|discriminate].
  cbn [Py.bind] in Hv.
  destruct (vstack_inv _ _ Es) as (Hne & S & -> & HS).
  assert (Hd : drawn <> []) by (intros ->; now apply Hne).
  unfold to_device in Hv.
  destruct (device_error (device b)) as [e|]; [discriminate|].
  cbn [Py.bind] in Hv.
  rewrite (vstack_scalars_ok (map action drawn)) in Hv
    by (destruct drawn; [congruence|discriminate]).
  cbn [Py.bind] in Hv.
  destruct (from_numpy_long (T2 1 (map (fun x => [x]) (map action drawn))))
    as [ta|e] eqn:Ea; [|discriminate].
  assert (ta = T2 1 (map (fun x => [x]) (map action drawn))).
  { unfold from_numpy_long in Ea. destruct (forallb in_int64 _); congruence. }
  subst ta. cbn [Py.bind] in Hv.
  rewrite (vstack_scalars_ok (map reward drawn)) in Hv
    by (destruct drawn; [congruence|discriminate]).
  cbn [Py.bind] in Hv.
  destruct (Np.vstack (map next_state drawn)) as [tn|e] eqn:En; [|discriminate].
  cbn [Py.bind] in Hv.
  destruct (vstack_inv _ _ En) as (_ & S' & -> & HS').
  rewrite (vstack_scalars_ok (map (fun e => done_to_float (done e)) drawn)) in Hv
    by (destruct drawn; [congruence|discriminate]).
  cbn [Py.bind] in Hv. injection Hv as <-. simpl.
  split.
  { unfold len, Deque.len. destruct drawn; [congruence|]. simpl in Hl. lia. }
  exists drawn, S, S'. rewrite !map_map.
  split; [reflexivity|]. split; [exact Hl|]. split.
  { apply Forall_forall. intros e He.
    rewrite Forall_forall in HS, HS'. split.
    - apply HS, in_map, He.
    - apply HS', in_map, He. }
  repeat split.
  apply Forall_forall. intros q Hq. apply in_concat in Hq.
  destruct Hq as (row & Hrow & Hq). apply in_map_iff in Hrow.
  destruct Hrow as (e & <- & _). destruct Hq as [<-|[]].
  unfold done_to_float. destruct (done e); auto.
Qed.

End SampleExtras.

Section BufferExtraWitnesses.

Import ReplayBuffer Scenario.

(** X1 on the arguments of the scenario, and on a negative
    capacity. *)
Lemma init_edge_cases_witness :
  __init__ seeded 4 (-1) 2 0 "cpu" boot = (Raise ValueError, boot) /\
  exists b,
    __init__ seeded 4 5 2 0 "cpu" boot = (Ok b, seeded 0) /\
    len b = 0%nat /\
    value (sample device_error b (seeded 0)) = Raise ValueError.
Proof.
  split.
  - apply (proj1 (init_edge_cases seeded device_error 4 (-1) 2 0 "cpu" boot)). lia.
  - destruct (proj2 (init_edge_cases seeded device_error 4 5 2 0 "cpu" boot))
      as (b & Hi & Hl & _ & _ & _ & _ & _ & Hs); [lia|].
    exists b. split; [exact Hi|]. split; [exact Hl|]. now rewrite Hs.
Defined.

(** X2 on the scenario: capacity 5, [batch_size] 2, six additions. *)
Lemma ready_threshold_witness :
  __init__ seeded 4 5 2 0 "cpu" boot = (Ok fresh, seeded 0) /\
  value (is_ready_to_sample
           (fst (add_all (map tagged [0; 1; 2; 3; 4; 5]%Z) fresh (seeded 0)))
           (seeded 0)) = Ok true.
Proof.
  split; [reflexivity|].
  apply (proj1 (ready_threshold seeded 4 5 2 0 "cpu" boot (seeded 0) (seeded 0) fresh
                  (map tagged [0; 1; 2; 3; 4; 5]%Z) eq_refl)).
  reflexivity.
Defined.

(** X3 on a buffer of capacity 0 to which two experiences are added. *)
Lemma zero_capacity_discards_witness :
  __init__ seeded 4 0 2 0 "cpu" boot = (Ok (buffer 0 2 []), seeded 0) /\
  Deque.items (memory (fst (add_all (map tagged [0; 1]%Z) (buffer 0 2 []) (seeded 0)))) = [].
Proof.
  split; [reflexivity|].
  exact (proj1 (zero_capacity_discards seeded device_error 4 2 0 "cpu" boot (seeded 0) (seeded 0)
                  (buffer 0 2 []) (map tagged [0; 1]%Z) eq_refl)).
Defined.

(** X4 on the full buffer of capacity 2. *)
Lemma add_effect_witness :
  let b := buffer 2 2 (map tagged [0; 1]%Z) in
  (len b <= Deque.maxlen (memory b))%nat /\
  len (self_after (add (tagged 2) b (seeded 0))) = 2%nat.
Proof.
  intros b. assert (H : (len b <= Deque.maxlen (memory b))%nat) by (vm_compute; lia).
  split; [exact H|].
  exact (proj1 (proj2 (proj2 (proj2 (proj2 (proj2 (proj2
           (add_effect b (tagged 2) (seeded 0) H)))))))).
Defined.

(** X5 on the scenario buffer with four experiences, sampled whole. *)
Lemma sample_without_replacement_witness :
  let b := buffer 5 4 (map tagged [0; 1; 2; 3]%Z) in
  well_formed 2 2 b /\ device_error (device b) = None /\
  (0 < batch_size b <= Z.of_nat (len b))%Z /\
  exists drawn,
    value (sample device_error b (seeded 0)) = Ok (batch_with 2 2 drawn) /\
    Permutation (Deque.items (memory b)) drawn.
Proof.
  intros b.
  assert (Hwf : well_formed 2 2 b) by repeat constructor.
  assert (Hk : (0 < batch_size b <= Z.of_nat (len b))%Z) by (unfold b; simpl; lia).
  split; [exact Hwf|]. split; [reflexivity|]. split; [exact Hk|].
  destruct (sample_without_replacement device_error 2 2 b (seeded 0) Hwf eq_refl Hk)
    as (drawn & rest & Hv & _ & _ & Hall).
  exists drawn. split; [exact Hv | exact (Hall eq_refl)].
Defined.

(** X6 on the end-to-end scenario: the experience tagged 0 is evicted
    and is not in the batch. *)
Lemma sample_after_eviction_witness :
  let es := map tagged [0; 1; 2; 3; 4; 5]%Z in
  __init__ seeded 4 5 2 0 "cpu" boot = (Ok fresh, seeded 0) /\
  value (sample device_error (fst (add_all es fresh (seeded 0))) (seeded 0))
    = Ok (batch_of 2 (map tagged [1; 2]%Z)) /\
  exists drawn,
    length drawn = 2%nat /\
    Forall (fun e => In e (map tagged [1; 2; 3; 4; 5]%Z)) drawn.
Proof.
  intros es. split; [reflexivity|]. split; [reflexivity|].
  destruct (sample_after_eviction seeded device_error 4 5 2 0 "cpu" boot (seeded 0) (seeded 0)
              fresh es (batch_of 2 (map tagged [1; 2]%Z)) eq_refl eq_refl)
    as (drawn & _ & _ & Hl & Hin).
  exists drawn. split; [exact Hl | exact Hin].
Defined.

(** X7 on the scenario buffer with four experiences. *)
Lemma sample_returns_rectangular_witness :
  value (sample device_error four (seeded 0)) = Ok (batch_of 2 (map tagged [0; 1]%Z)) /\
  (1 <= batch_size four <= Z.of_nat (len four))%Z.
Proof.
  split; [reflexivity|].
  exact (proj1 (sample_returns_rectangular device_error four (seeded 0)
                  (batch_of 2 (map tagged [0; 1]%Z)) eq_refl)).
Defined.

End BufferExtraWitnesses.

(* ================================================================= *)
(** * Further properties of the networks *)

Section WidthFacts.

Import Torch Layers.

Variable allocates : Z -> Z -> bool.

Lemma last_map_gen {A B : Type} (f : A -> B) (l : list A) (d : A) :
  last (map f l) (f d) = f (last l d).
Proof.
  induction l as [|a l IH]; [reflexivity|].
  destruct l as [|a' l']; [reflexivity|]. exact IH.
Qed.

Lemma combine_snoc {A : Type} (l : list A) :
  forall a b : A,
    combine (a :: l) (l ++ [b]) = combine (a :: l) l ++ [(last l a, b)].
Proof.
  induction l as [|x l IH]; intros a b; [reflexivity|].
  change (combine (a :: x :: l) ((x :: l) ++ [b]))
    with ((a, x) :: combine (x :: l) (l ++ [b])).
  rewrite IH. rewrite (last_cons x l a). reflexivity.
Qed.

Lemma widths_chain {A : Type} (a x b : A) (l : list A) :
  combine (a :: x :: l) ((x :: l) ++ [b])
  = (a, x) :: (combine (x :: l) l ++ [(last l x, b)]).
Proof.
  change (combine (a :: x :: l) ((x :: l) ++ [b]))
    with ((a, x) :: combine (x :: l) (l ++ [b])).
  now rewrite combine_snoc.
Qed.

(** The widths of the layers between consecutive units. *)
Lemma hidden_layers_dims (zs : list Z) :
  forall (z : Z) (g : Generator) (p : list Linear * Generator),
    hidden_layers allocates (map Int (z :: zs)) g = Ok p ->
    map dims (fst p) = combine (map Z.to_nat (z :: zs)) (map Z.to_nat zs) /\
    Forall Linear_ok (fst p).
Proof.
  induction zs as [|z' rest IH]; intros z g p E.
  - simpl in E. injection E as <-. simpl. auto.
  - change (map Int (z :: z' :: rest)) with (Int z :: Int z' :: map Int rest) in E.
    rewrite hidden_layers_cons in E.
    destruct (nn_Linear allocates (Int z) (Int z') g) as [p1|e] eqn:E1;
      cbn [Py.bind] in E; [|discriminate].
    destruct (hidden_layers allocates (Int z' :: map Int rest) (snd p1)) as [q|e] eqn:E2;
      cbn [Py.bind] in E; [|discriminate].
    injection E as <-. cbn [fst].
    destruct (nn_Linear_inv _ _ _ _ _ E1) as (i & o & Ei & Eo & _ & _ & Hin & Hout & Hok).
    injection Ei as <-. injection Eo as <-.
    destruct (IH z' (snd p1) q E2) as (Hd & Hall).
    split; [|constructor; assumption].
    simpl. unfold dims at 1. rewrite Hin, Hout. f_equal. exact Hd.
Qed.

End WidthFacts.

Section WidthClaims.

Import Torch Layers.

Variable allocates : Z -> Z -> bool.

Variable manual_seed : Z -> Generator.

(** X8.  A plain network constructed from [fc_units = [u0, ..., um]] has
    [m + 2] layers whose widths are, in order,
    [state_size -> u0], [u0 -> u1], ..., [um -> action_size]; every
    layer's weight and bias have the shape the layer declares. *)
Theorem qnetwork_layer_widths (ss acs sd : Z) (fc : object) (net : QNetwork.t) :
  QNetwork.__init__ allocates manual_seed ss acs sd fc = Ok net ->
  exists zs,
    fc = PyList (map Int zs) /\
    length (QNetwork.fc_layers net) = S (length zs) /\
    map dims (QNetwork.fc_layers net)
      = combine (map Z.to_nat (ss :: zs)) (map Z.to_nat (zs ++ [acs])) /\
    Forall Linear_ok (QNetwork.fc_layers net).
Proof.
  intros E. apply qnetwork_init_seeded in E.
  destruct (QNetwork._init_fc_layers allocates ss acs fc (manual_seed sd)) as [p|e] eqn:Ei;
    [|discriminate].
  cbn [Py.bind] in E. injection E as <-.
  destruct (qnetwork_init_inv _ _ _ _ _ _ Ei) as (zs & -> & Hne & _).
  exists zs. split; [reflexivity|].
  destruct zs as [|z zs']; [congruence|].
  unfold QNetwork._init_fc_layers in Ei.
  change (map Int (z :: zs')) with (Int z :: map Int zs') in Ei.
  cbv beta iota in Ei.
  destruct (nn_Linear allocates (Int ss) (Int z) (manual_seed sd)) as [p0|e] eqn:E0;
    cbn [Py.bind] in Ei; [|discriminate].
  change (Int z :: map Int zs') with (map Int (z :: zs')) in Ei.
  destruct (hidden_layers allocates (map Int (z :: zs')) (snd p0)) as [ph|e] eqn:Eh;
    cbn [Py.bind] in Ei; [|discriminate].
  rewrite last_map_Int in Ei.
  destruct (nn_Linear allocates (Int (last (z :: zs') z)) (Int acs) (snd ph)) as [pl|e] eqn:El;
    cbn [Py.bind] in Ei; [|discriminate].
  injection Ei as <-. cbn [fst QNetwork.fc_layers].
  destruct (nn_Linear_inv _ _ _ _ _ E0) as (i & o & Ei & Eo & _ & _ & Hin0 & Hout0 & Hok0).
  injection Ei as <-. injection Eo as <-.
  destruct (nn_Linear_inv _ _ _ _ _ El) as (i & o & Ei & Eo & _ & _ & Hinl & Houtl & Hokl).
  injection Ei as <-. injection Eo as <-.
  destruct (hidden_layers_dims allocates zs' z (snd p0) ph Eh) as (Hd & Hall).
  assert (Hlen : length (fst ph) = length zs').
  { rewrite <- (length_map dims), Hd, length_combine, !length_map.
    cbn [length]. lia. }
  split; [|split].
  - cbn [length]. rewrite length_app. cbn [length]. lia.
  - cbn [map]. rewrite !map_app. cbn [map] in *. rewrite widths_chain, last_map_gen, Hd.
    unfold dims. rewrite Hin0, Hout0, Hinl, Houtl.
    destruct zs'; reflexivity.
  - constructor; [assumption|]. apply Forall_app. split; [assumption|].
    constructor; [assumption|constructor].
Qed.

(** X9.  A dueling network constructed from [fc_units = [u0, ..., um]]
    has a trunk of [m + 1] layers of widths [state_size -> u0],
    [u0 -> u1], ..., and two heads on the last unit:
    [um -> 32 -> 1] for the value and [um -> 32 -> action_size] for the
    advantage; every layer's parameters have the declared shape (also
    the two whose weight is drawn again by [xavier_normal_]). *)
Theorem dueling_layer_widths (ss acs sd : Z) (fc : object) (net : DuelingQNetwork.t) :
  DuelingQNetwork.__init__ allocates manual_seed ss acs sd fc = Ok net ->
  exists zs,
    fc = PyList (map Int zs) /\
    length (DuelingQNetwork.fc_layers net) = length zs /\
    map dims (DuelingQNetwork.fc_layers net)
      = combine (map Z.to_nat (ss :: zs)) (map Z.to_nat zs) /\
    Forall Linear_ok (DuelingQNetwork.fc_layers net) /\
    dims (DuelingQNetwork.value_layer1 net) = (Z.to_nat (last zs 0%Z), 32%nat) /\
    dims (DuelingQNetwork.value_layer2 net) = (32%nat, 1%nat) /\
    dims (DuelingQNetwork.action_layer1 net) = (Z.to_nat (last zs 0%Z), 32%nat) /\
    dims (DuelingQNetwork.action_layer2 net) = (32%nat, Z.to_nat acs) /\
    Linear_ok (DuelingQNetwork.value_layer1 net) /\
    Linear_ok (DuelingQNetwork.value_layer2 net) /\
    Linear_ok (DuelingQNetwork.action_layer1 net) /\
    Linear_ok (DuelingQNetwork.action_layer2 net).
Proof.
  intros E. apply dueling_init_seeded in E.
  destruct (DuelingQNetwork._init_fc_layers allocates ss acs fc (manual_seed sd)) as [p|e] eqn:Ei;
    [|discriminate].
  cbn [Py.bind] in E. injection E as <-.
  destruct (dueling_init_inv _ _ _ _ _ _ Ei) as (zs & -> & Hne & _).
  exists zs. split; [reflexivity|].
  destruct zs as [|z zs']; [congruence|].
  unfold DuelingQNetwork._init_fc_layers in Ei.
  change (map Int (z :: zs')) with (Int z :: map Int zs') in Ei.
  cbv beta iota in Ei.
  destruct (nn_Linear allocates (Int ss) (Int z) (manual_seed sd)) as [p0|e] eqn:E0;
    cbn [Py.bind] in Ei; [|discriminate].
  change (Int z :: map Int zs') with (map Int (z :: zs')) in Ei.
  destruct (hidden_layers allocates (map Int (z :: zs')) (snd p0)) as [ph|e] eqn:Eh;
    cbn [Py.bind] in Ei; [|discriminate].
  rewrite last_map_Int in Ei.
  rewrite (last_cons z zs' 0%Z), <- (last_cons z zs' z).
  remember (last (z :: zs') z) as lz eqn:Hlz.
  destruct (nn_Linear allocates (Int lz) (Int 32) (snd ph)) as [v1|e] eqn:Ev1;
    cbn [Py.bind] in Ei; [|discriminate].
  destruct (nn_Linear_inv _ _ _ _ _ Ev1) as (i & o & Ei1 & Eo1 & _ & _ & Hv1i & Hv1o & Hv1).
  injection Ei1 as <-. injection Eo1 as <-.
  destruct (xavier_normal_shape (fst v1) (snd v1) Hv1) as (Hxi & Hxo & Hxok).
  destruct (xavier_normal_ (fst v1) (snd v1)) as [vl1 g1]. cbn [fst] in *.
  destruct (nn_Linear allocates (Int 32) (Int 1) g1) as [v2|e] eqn:Ev2;
    cbn [Py.bind] in Ei; [|discriminate].
  destruct (nn_Linear_inv _ _ _ _ _ Ev2) as (i & o & Ei2 & Eo2 & _ & _ & Hv2i & Hv2o & Hv2).
  injection Ei2 as <-. injection Eo2 as <-.
  destruct (nn_Linear allocates (Int lz) (Int 32) (snd v2)) as [a1|e] eqn:Ea1;
    cbn [Py.bind] in Ei; [|discriminate].
  destruct (nn_Linear_inv _ _ _ _ _ Ea1) as (i & o & Ei3 & Eo3 & _ & _ & Ha1i & Ha1o & Ha1).
  injection Ei3 as <-. injection Eo3 as <-.
  destruct (xavier_normal_shape (fst a1) (snd a1) Ha1) as (Hyi & Hyo & Hyok).
  destruct (xavier_normal_ (fst a1) (snd a1)) as [al1 g2]. cbn [fst] in *.
  destruct (nn_Linear allocates (Int 32) (Int acs) g2) as [a2|e] eqn:Ea2;
    cbn [Py.bind] in Ei; [|discriminate].
  destruct (nn_Linear_inv _ _ _ _ _ Ea2) as (i & o & Ei4 & Eo4 & _ & _ & Ha2i & Ha2o & Ha2).
  injection Ei4 as <-. injection Eo4 as <-.
  injection Ei as <-.
  cbn [fst DuelingQNetwork.fc_layers DuelingQNetwork.value_layer1
       DuelingQNetwork.value_layer2 DuelingQNetwork.action_layer1
       DuelingQNetwork.action_layer2].
  destruct (nn_Linear_inv _ _ _ _ _ E0) as (i & o & Ei & Eo & _ & _ & Hin0 & Hout0 & Hok0).
  injection Ei as <-. injection Eo as <-.
  destruct (hidden_layers_dims allocates zs' z (snd p0) ph Eh) as (Hd & Hall).
  change (Z.to_nat 32) with 32%nat in *. change (Z.to_nat 1) with 1%nat in *.
  split.
  { cbn [length]. f_equal.
    rewrite <- (length_map dims), Hd, length_combine, !length_map.
    cbn [length]. lia. }
  split.
  { simpl map at 1. rewrite Hd. unfold dims at 1. rewrite Hin0, Hout0. reflexivity. }
  split; [constructor; assumption|].
  unfold dims.
  repeat match goal with
         | |- Linear_ok _ => assumption
         | |- _ /\ _ => split
         end; congruence.
Qed.

End WidthClaims.

Section RowFacts.

Import Torch Layers.

Lemma relu_layers_cons (l : Linear) (rest : list Linear) (x : tensor Q) :
  relu_layers (l :: rest) x = (y <- linear l x ;; relu_layers rest (relu y)).
Proof. reflexivity. Qed.

Lemma relu_layers_row_length (layers : list Linear) :
  forall (i o : nat) (r : list Q),
    chain i layers o -> length r = i -> length (relu_layers_row layers r) = o.
Proof.
  induction layers as [|l rest IH]; intros i o r Hc Hr; simpl in *; [congruence|].
  destruct Hc as (Hl & _ & Hc).
  apply (IH (out_features l) o); [exact Hc|].
  rewrite length_map. now apply affine_length.
Qed.

(** The layers act on a batch row by row. *)
Lemma relu_layers_rows (layers : list Linear) :
  forall (i o : nat) (rows : list (list Q)),
    chain i layers o ->
    relu_layers layers (T2 i rows) = Ok (T2 o (map (relu_layers_row layers) rows)).
Proof.
  induction layers as [|l rest IH]; intros i o rows Hc.
  - simpl in *. subst o. now rewrite map_id.
  - destruct Hc as (Hl & Hi & Hc). rewrite relu_layers_cons.
    cbn [linear]. rewrite <- Hi, Nat.eqb_refl. cbn [Py.bind relu].
    rewrite (IH (out_features l) o _ Hc), !map_map. reflexivity.
Qed.

(** The layers on a single state. *)
Lemma relu_layers_single (layers : list Linear) :
  forall (i o : nat) (r : list Q),
    chain i layers o -> length r = i ->
    relu_layers layers (T1 r) = Ok (T1 (relu_layers_row layers r)).
Proof.
  induction layers as [|l rest IH]; intros i o r Hc Hr; [reflexivity|].
  destruct Hc as (Hl & Hi & Hc). rewrite relu_layers_cons.
  cbn [linear]. rewrite Hr, <- Hi, Nat.eqb_refl. cbn [Py.bind relu].
  apply (IH (out_features l) o); [exact Hc|].
  rewrite length_map. now apply affine_length.
Qed.

(** A head of two layers on a batch. *)
Lemma head_rows (l1 l2 : Linear) (c : nat) (rows : list (list Q)) :
  in_features l1 = c ->
  out_features l1 = in_features l2 ->
  (h <- linear l1 (T2 c rows) ;; linear l2 (relu h))
  = Ok (T2 (out_features l2) (map (head_row l1 l2) rows)).
Proof.
  intros H1 H12. cbn [linear]. rewrite <- H1, Nat.eqb_refl. cbn [Py.bind relu linear].
  rewrite H12, Nat.eqb_refl, !map_map. reflexivity.
Qed.

Lemma zip_with_map_same {A B C D : Type} (f : B -> C -> D) (g : A -> B) (h : A -> C)
    (l : list A) :
  zip_with f (map g l) (map h l) = map (fun x => f (g x) (h x)) l.
Proof. induction l as [|a l IH]; simpl; [reflexivity|]. now rewrite IH. Qed.

(** A layer refuses a tensor whose last dimension does not fit. *)
Lemma linear_mismatch (l : Linear) (x : tensor Q) :
  last_dim x <> in_features l -> linear l x = Raise RuntimeError.
Proof.
  intros H. destruct x as [v|c rows]; simpl in *.
  - destruct (Nat.eqb_spec (length v) (in_features l)); [contradiction|reflexivity].
  - destruct (Nat.eqb_spec c (in_features l)); [contradiction|reflexivity].
Qed.

End RowFacts.

Section ForwardExtras.

Import Torch Layers.

Variable allocates : Z -> Z -> bool.

Variable manual_seed : Z -> Generator.

(** X10.  The plain network treats a batch state by state: there is a
    function of one state that gives the output row of every state of
    a batch, whatever the other states are, and that is also the output
    for that state passed alone, unbatched. *)
Theorem qnetwork_forward_rowwise (ss acs sd : Z) (fc : object) (net : QNetwork.t) :
  QNetwork.__init__ allocates manual_seed ss acs sd fc = Ok net ->
  exists f : list Q -> list Q,
    (forall rows,
       QNetwork.forward net (T2 (Z.to_nat ss) rows)
       = Ok (T2 (Z.to_nat acs) (map f rows))) /\
    (forall r, length r = Z.to_nat ss ->
       QNetwork.forward net (T1 r) = Ok (T1 (f r))).
Proof.
  intros E. apply qnetwork_init_seeded in E.
  destruct (QNetwork._init_fc_layers allocates ss acs fc (manual_seed sd)) as [p|e] eqn:Ei;
    [|discriminate].
  cbn [Py.bind] in E. injection E as <-.
  destruct (qnetwork_init_shaped _ _ _ _ _ _ Ei) as (hidden & out & Hfc & Hne & Hc & Hok & Hout).
  exists (fun r => affine out (relu_layers_row hidden r)). split.
  - intros rows. rewrite (qnetwork_forward_split _ hidden out _ Hfc).
    rewrite (relu_layers_rows hidden _ _ rows Hc). cbn [Py.bind linear].
    rewrite Nat.eqb_refl, Hout, map_map. reflexivity.
  - intros r Hr. rewrite (qnetwork_forward_split _ hidden out _ Hfc).
    rewrite (relu_layers_single hidden _ _ r Hc Hr). cbn [Py.bind linear].
    rewrite (relu_layers_row_length hidden _ _ r Hc Hr), Nat.eqb_refl. reflexivity.
Qed.

(** X11.  The dueling network treats a batch state by state as well:
    there is a function of one state that gives the output row of every
    state of a batch, whatever the other states of the batch are (the
    mean is taken within each row). *)
Theorem dueling_forward_rowwise (ss acs sd : Z) (fc : object) (net : DuelingQNetwork.t) :
  DuelingQNetwork.__init__ allocates manual_seed ss acs sd fc = Ok net ->
  exists f : list Q -> list Q,
    forall rows,
      DuelingQNetwork.forward net (T2 (Z.to_nat ss) rows)
      = Ok (T2 (Z.to_nat acs) (map f rows)).
Proof.
  intros E. apply dueling_init_seeded in E.
  destruct (DuelingQNetwork._init_fc_layers allocates ss acs fc (manual_seed sd)) as [p|e] eqn:Ei;
    [|discriminate].
  cbn [Py.bind] in E. injection E as <-.
  destruct (dueling_init_shaped _ _ _ _ _ _ Ei)
    as (width & Hne & Hc & (Hv1 & Hv1i & Hv1o) & (Hv2 & Hv2i & Hv2o)
        & (Ha1 & Ha1i & Ha1o) & (Ha2 & Ha2i & Ha2o)).
  set (net := fst p) in *. set (n := Z.to_nat acs) in *.
  set (trunk := relu_layers_row (DuelingQNetwork.fc_layers net)).
  set (vrow := fun r => head_row (DuelingQNetwork.value_layer1 net)
                                 (DuelingQNetwork.value_layer2 net) (trunk r)).
  set (arow := fun r => head_row (DuelingQNetwork.action_layer1 net)
                                 (DuelingQNetwork.action_layer2 net) (trunk r)).
  exists (fun r => dueling_q n (hd 0 (vrow r)) (arow r)).
  intros rows. unfold DuelingQNetwork.forward.
  rewrite (relu_layers_rows _ _ _ rows Hc). cbn [Py.bind].
  unfold DuelingQNetwork.value_head, DuelingQNetwork.advantage_head.
  rewrite head_rows by congruence. cbn [Py.bind].
  rewrite head_rows by congruence. cbn [Py.bind mean_dim1].
  rewrite Hv2o, Ha2o.
  set (hs := map (relu_layers_row (DuelingQNetwork.fc_layers net)) rows).
  assert (Ha : Forall (fun a => length a = n)
                 (map (head_row (DuelingQNetwork.action_layer1 net)
                                (DuelingQNetwork.action_layer2 net)) hs)).
  { apply Forall_forall. intros a Hin. apply in_map_iff in Hin.
    destruct Hin as (r & <- & _). unfold head_row.
    rewrite affine_length by assumption. exact Ha2o. }
  assert (Hv : Forall (fun v => length v = 1%nat)
                 (map (head_row (DuelingQNetwork.value_layer1 net)
                                (DuelingQNetwork.value_layer2 net)) hs)).
  { apply Forall_forall. intros v Hin. apply in_map_iff in Hin.
    destruct Hin as (r & <- & _). unfold head_row.
    rewrite affine_length by assumption. exact Hv2o. }
  rewrite (sub_mean n _ Ha). cbn [Py.bind].
  rewrite (singleton_rows _ Hv).
  rewrite add_column.
  - rewrite zip_with_dueling. unfold hs. rewrite !map_map, zip_with_map_same.
    reflexivity.
  - now rewrite !length_map.
  - apply Forall_forall. intros d Hd. apply in_map_iff in Hd.
    destruct Hd as (a0 & <- & Ha0). rewrite length_map.
    rewrite Forall_forall in Ha. now apply Ha.
Qed.

(** X13.  Either network refuses an input whose last dimension is not
    [state_size]: the first layer raises [RuntimeError]. *)
Theorem forward_wrong_state_size (ss acs sd : Z) (fc : object)
    (qnet : QNetwork.t) (dnet : DuelingQNetwork.t) (x : tensor Q) :
  QNetwork.__init__ allocates manual_seed ss acs sd fc = Ok qnet ->
  DuelingQNetwork.__init__ allocates manual_seed ss acs sd fc = Ok dnet ->
  last_dim x <> Z.to_nat ss ->
  QNetwork.forward qnet x = Raise RuntimeError /\
  DuelingQNetwork.forward dnet x = Raise RuntimeError.
Proof.
  intros Eq Ed Hx. apply dueling_init_seeded in Ed. apply qnetwork_init_seeded in Eq.
  destruct (DuelingQNetwork._init_fc_layers allocates ss acs fc (manual_seed sd)) as [pd|e] eqn:Eid;
    [|discriminate].
  destruct (QNetwork._init_fc_layers allocates ss acs fc (manual_seed sd)) as [pq|e] eqn:Eiq;
    [|discriminate].
  cbn [Py.bind] in Ed, Eq. injection Ed as <-. injection Eq as <-.
  destruct (dueling_init_shaped _ _ _ _ _ _ Eid) as (width & Hne & Hc & _).
  destruct (qnetwork_init_shaped _ _ _ _ _ _ Eiq) as (hidden & out & Hfc & Hneq & Hcq & _).
  split.
  - rewrite (qnetwork_forward_split _ hidden out _ Hfc).
    destruct hidden as [|l0 rest]; [congruence|].
    destruct Hcq as (_ & Hi & _). rewrite relu_layers_cons.
    rewrite linear_mismatch by congruence. reflexivity.
  - unfold DuelingQNetwork.forward.
    destruct (DuelingQNetwork.fc_layers (fst pd)) as [|l0 rest]; [congruence|].
    destruct Hc as (_ & Hi & _). rewrite relu_layers_cons.
    rewrite linear_mismatch by congruence. reflexivity.
Qed.

End ForwardExtras.

Section NetworkExtraWitnesses.

Import Torch Layers.

(** X8 on the plain network with units 3 and 2. *)
Lemma qnetwork_layer_widths_witness :
  exists net,
    QNetwork.__init__ Scenario.allocates Scenario.manual_seed 2 2 0 (PyList [Int 3; Int 2]) = Ok net /\
    map dims (QNetwork.fc_layers net) = [(2, 3); (3, 2); (2, 2)]%nat.
Proof.
  destruct (QNetwork.__init__ Scenario.allocates Scenario.manual_seed 2 2 0 (PyList [Int 3; Int 2]))
    as [net|e] eqn:E; [|vm_compute in E; discriminate E].
  exists net. split; [reflexivity|].
  destruct (qnetwork_layer_widths Scenario.allocates Scenario.manual_seed 2 2 0 (PyList [Int 3; Int 2]) net E)
    as (zs & Hfc & _ & Hd & _).
  injection Hfc as Hzs.
  destruct zs as [|z1 [|z2 [|z3 zs]]]; try discriminate Hzs.
  injection Hzs as <- <-. exact Hd.
Defined.

(** X9 on the dueling network with one unit of width 2. *)
Lemma dueling_layer_widths_witness :
  exists net,
    DuelingQNetwork.__init__ Scenario.allocates Scenario.manual_seed 2 2 0 (PyList [Int 2]) = Ok net /\
    dims (DuelingQNetwork.value_layer2 net) = (32, 1)%nat /\
    dims (DuelingQNetwork.action_layer2 net) = (32, 2)%nat.
Proof.
  destruct (DuelingQNetwork.__init__ Scenario.allocates Scenario.manual_seed 2 2 0 (PyList [Int 2]))
    as [net|e] eqn:E; [|vm_compute in E; discriminate E].
  exists net. split; [reflexivity|].
  destruct (dueling_layer_widths Scenario.allocates Scenario.manual_seed 2 2 0 (PyList [Int 2]) net E)
    as (zs & _ & _ & _ & _ & _ & Hv2 & _ & Ha2 & _).
  split; [exact Hv2 | exact Ha2].
Defined.

(** X10 on the plain network with units 3 and 2. *)
Lemma qnetwork_forward_rowwise_witness :
  exists net (f : list Q -> list Q),
    QNetwork.__init__ Scenario.allocates Scenario.manual_seed 2 2 0 (PyList [Int 3; Int 2]) = Ok net /\
    QNetwork.forward net (T2 2 [[1; 2]; [0; 1]]) = Ok (T2 2 [f [1; 2]; f [0; 1]]) /\
    QNetwork.forward net (T1 [0; 1]) = Ok (T1 (f [0; 1])).
Proof.
  destruct (QNetwork.__init__ Scenario.allocates Scenario.manual_seed 2 2 0 (PyList [Int 3; Int 2]))
    as [net|e] eqn:E; [|vm_compute in E; discriminate E].
  destruct (qnetwork_forward_rowwise Scenario.allocates Scenario.manual_seed 2 2 0 (PyList [Int 3; Int 2]) net E)
    as (f & Hb & Hs).
  exists net, f. split; [reflexivity|]. split.
  - exact (Hb [[1; 2]; [0; 1]]).
  - exact (Hs [0; 1] eq_refl).
Defined.

(** X11 on the dueling network with one unit of width 2. *)
Lemma dueling_forward_rowwise_witness :
  exists net (f : list Q -> list Q),
    DuelingQNetwork.__init__ Scenario.allocates Scenario.manual_seed 2 2 0 (PyList [Int 2]) = Ok net /\
    DuelingQNetwork.forward net (T2 2 [[1; 2]; [0; 1]]) = Ok (T2 2 [f [1; 2]; f [0; 1]]) /\
    DuelingQNetwork.forward net (T2 2 [[0; 1]]) = Ok (T2 2 [f [0; 1]]).
Proof.
  destruct (DuelingQNetwork.__init__ Scenario.allocates Scenario.manual_seed 2 2 0 (PyList [Int 2]))
    as [net|e] eqn:E; [|vm_compute in E; discriminate E].
  destruct (dueling_forward_rowwise Scenario.allocates Scenario.manual_seed 2 2 0 (PyList [Int 2]) net E)
    as (f & Hb).
  exists net, f. split; [reflexivity|]. split.
  - exact (Hb [[1; 2]; [0; 1]]).
  - exact (Hb [[0; 1]]).
Defined.

(** X13 on the two networks for states of size 2, given a state of
    size 3. *)
Lemma forward_wrong_state_size_witness :
  exists qnet dnet,
    QNetwork.__init__ Scenario.allocates Scenario.manual_seed 2 2 0 (PyList [Int 2]) = Ok qnet /\
    DuelingQNetwork.__init__ Scenario.allocates Scenario.manual_seed 2 2 0 (PyList [Int 2]) = Ok dnet /\
    QNetwork.forward qnet (T1 [1; 2; 3]) = Raise RuntimeError /\
    DuelingQNetwork.forward dnet (T2 3 [[1; 2; 3]]) = Raise RuntimeError.
Proof.
  destruct (QNetwork.__init__ Scenario.allocates Scenario.manual_seed 2 2 0 (PyList [Int 2]))
    as [qnet|e] eqn:Eq; [|vm_compute in Eq; discriminate Eq].
  destruct (DuelingQNetwork.__init__ Scenario.allocates Scenario.manual_seed 2 2 0 (PyList [Int 2]))
    as [dnet|e] eqn:Ed; [|vm_compute in Ed; discriminate Ed].
  exists qnet, dnet. split; [reflexivity|]. split; [reflexivity|]. split.
  - refine (proj1 (forward_wrong_state_size Scenario.allocates Scenario.manual_seed 2 2 0 (PyList [Int 2])
                     qnet dnet (T1 [1; 2; 3]) Eq Ed _)).
    simpl. lia.
  - refine (proj2 (forward_wrong_state_size Scenario.allocates Scenario.manual_seed 2 2 0 (PyList [Int 2])
                     qnet dnet (T2 3 [[1; 2; 3]]) Eq Ed _)).
    simpl. lia.
Defined.

End NetworkExtraWitnesses.

Section TrunkExtras.

Import Torch.

Variable allocates : Z -> Z -> bool.

Variable manual_seed : Z -> Generator.


End TrunkExtras.

